(** * Communication agent: tone detection and email-response orchestration

    A shallow embedding of [app/services/tone_detector.py],
    [app/services/langchain_service.py], [app/services/ai_agent.py], the
    routes of [app/api/endpoints.py] and the request/response models of
    [app/models/schemas.py], followed by the properties stated about them.

    Conventions.
    - A Python [str] is a list of Unicode code points ([str]); ASCII
      literals of the source are written [str_of "..."].
    - A Python [float] is an IEEE-754 binary64 number ([float], the
      kernel's primitive floats), so that [matches / len(patterns)] and the
      comparisons with [0.3] round exactly as they do in the program.
    - A Python [dict] is an association list in insertion order.
    - Exceptions and log output are threaded through the monad [M], and
      through [App] where the conversation memory and [HTTPException] come
      in. *)

From Stdlib Require Import String Ascii.
From Stdlib Require Import List Bool Arith ZArith NArith Lia.
From Stdlib Require Import Floats Uint63.
From Stdlib Require DecimalString.
From Equations.Prop Require Import Equations Logic.
Import ListNotations.

Set Implicit Arguments.
#[local] Set Warnings "-inexact-float".

(* ===================================================================== *)
(** ** Text *)
(* ===================================================================== *)

Definition codepoint := N.
Definition str := list codepoint.

Definition chr (a : ascii) : codepoint := N_of_ascii a.

Definition str_of (s : string) : str := map chr (list_ascii_of_string s).

(** [len(s)] *)
Definition len (A : Type) (s : list A) : Z := Z.of_nat (length s).

Fixpoint str_eqb (a b : str) : bool :=
  match a, b with
  | [], [] => true
  | x :: a', y :: b' => N.eqb x y && str_eqb a' b'
  | _, _ => false
  end.

(** Truthiness of a string: non-empty. *)
Definition str_truthy (s : str) : bool :=
  match s with [] => false | _ :: _ => true end.

(** *** The part of the Unicode character database the program reaches

    The regular-expression engine and [str.lower] consult the Unicode
    character database for characters outside ASCII.  The ASCII rows are
    written out below; the rest of the table is a parameter of the
    development. *)
Class UnicodeData := {
  (** [c.isalnum()] for a non-ASCII character (the class [\w] of [re]) *)
  uc_isalnum : codepoint -> bool;
  (** whether the non-ASCII text character [c] matches the pattern
      character [p] under [re.IGNORECASE] *)
  uc_caseless : codepoint -> codepoint -> bool;
  (** [s.lower()] for a string holding a non-ASCII character *)
  uc_lower : str -> str
}.

(** A table in which no character outside ASCII is alphanumeric or cased;
    it is what the closed examples below run with. *)
Definition ascii_only : UnicodeData :=
  {| uc_isalnum := fun _ => false;
     uc_caseless := fun p c => N.eqb p c;
     uc_lower := fun s => s |}.

Definition is_ascii (c : codepoint) : bool := (c <? 128)%N.

Definition is_ascii_upper (c : codepoint) : bool := ((65 <=? c) && (c <=? 90))%N.
Definition is_ascii_lower (c : codepoint) : bool := ((97 <=? c) && (c <=? 122))%N.
Definition is_ascii_digit (c : codepoint) : bool := ((48 <=? c) && (c <=? 57))%N.

Definition ascii_tolower (c : codepoint) : codepoint :=
  if is_ascii_upper c then (c + 32)%N else c.
Definition ascii_toupper (c : codepoint) : codepoint :=
  if is_ascii_lower c then (c - 32)%N else c.

(** [c.isspace()]: the white-space characters [str.strip()] removes. *)
Definition isspace (c : codepoint) : bool :=
  ((9 <=? c) && (c <=? 13) || (28 <=? c) && (c <=? 32)
   || (c =? 133) || (c =? 160) || (c =? 5760)
   || (8192 <=? c) && (c <=? 8202)
   || (c =? 8232) || (c =? 8233) || (c =? 8239) || (c =? 8287)
   || (c =? 12288))%N.

Fixpoint lstrip (s : str) : str :=
  match s with
  | c :: s' => if isspace c then lstrip s' else s
  | [] => []
  end.

Definition rstrip (s : str) : str := rev (lstrip (rev s)).

(** [s.strip()] *)
Definition strip (s : str) : str := rstrip (lstrip s).

Section WithUnicode.
Context {UD : UnicodeData}.

(** [s.lower()] *)
Definition lower (s : str) : str :=
  if forallb is_ascii s then map ascii_tolower s else uc_lower s.

(** The class [\w]: alphanumeric or underscore. *)
Definition is_word (c : codepoint) : bool :=
  if is_ascii c
  then is_ascii_upper c || is_ascii_lower c || is_ascii_digit c || N.eqb c (chr "_")
  else uc_isalnum c.

(** A literal pattern character [p] against the text character [c].  The
    patterns compiled with [(?i)] are written in ASCII, so an ASCII text
    character matches when the two agree in lower case. *)
Definition char_matches (ignorecase : bool) (p c : codepoint) : bool :=
  if ignorecase
  then if is_ascii c then N.eqb (ascii_tolower p) (ascii_tolower c)
       else uc_caseless p c
  else N.eqb p c.

End WithUnicode.

(** [key.replace('_', ' ')] *)
Definition replace_char (old new : codepoint) (s : str) : str :=
  map (fun c => if N.eqb c old then new else c) s.

(** [s.title()] on the ASCII field names it is applied to: the first
    letter of every run of letters in upper case, the others in lower case
    (characters outside ASCII, which no field name has, are left as they
    are). *)
Fixpoint title_from (prev_cased : bool) (s : str) : str :=
  match s with
  | [] => []
  | c :: s' =>
      (if prev_cased then ascii_tolower c else ascii_toupper c)
        :: title_from (is_ascii_upper c || is_ascii_lower c) s'
  end.

Definition title (s : str) : str := title_from false s.

(** [s.startswith(p)] *)
Fixpoint startswith (p s : str) : bool :=
  match p, s with
  | [], _ => true
  | x :: p', y :: s' => N.eqb x y && startswith p' s'
  | _ :: _, [] => false
  end.

(** [s.find(sub)]: the lowest index at which [sub] occurs. *)
Fixpoint find (sub s : str) : option nat :=
  if startswith sub s then Some 0%nat
  else match s with
       | [] => None
       | _ :: s' => option_map S (find sub s')
       end.

(** [sub in s] *)
Definition contains (sub s : str) : bool :=
  match find sub s with Some _ => true | None => false end.

(** [s.split(sep)] for a non-empty separator [c :: sep']: cut at the first
    occurrence, go on after it. *)
Equations? split_nonempty (c : codepoint) (sep' : str) (s : str) : list str
  by wf (length s) lt :=
split_nonempty c sep' s with inspect (find (c :: sep') s) := {
  | exist _ None _ => [s]
  | exist _ (Some i) _ =>
      firstn i s :: split_nonempty c sep' (skipn (i + length (c :: sep')) s) }.
Proof.
  assert (Hprefix : forall p t : str,
             startswith p t = true -> (length p <= length t)%nat).
  { induction p as [|x p IH]; intros [|y t]; simpl; try lia; try discriminate.
    intros H; apply andb_prop in H as [_ H]; apply IH in H; lia. }
  assert (Hfind : forall (t : str) (j : nat),
             find (c :: sep') t = Some j -> (j + length (c :: sep') <= length t)%nat).
  { induction t as [|y t IH]; intros j; cbn [find].
    - destruct (startswith (c :: sep') []) eqn:E; [|discriminate].
      intros [= <-]. apply Hprefix in E. simpl in *; lia.
    - destruct (startswith (c :: sep') (y :: t)) eqn:E.
      + intros [= <-]. apply Hprefix in E. simpl in *; lia.
      + destruct (find (c :: sep') t) as [k|]; [|discriminate].
        intros [= <-]. specialize (IH k eq_refl). simpl in *; lia. }
  apply Hfind in e. rewrite length_skipn. simpl in *. lia.
Qed.

(** [l[-1]] of a non-empty list ([split] never returns an empty one). *)
Definition last_item (l : list str) : str := last l [].

(** [str(n)] for an integer. *)
Definition str_of_int (n : Z) : str :=
  str_of (DecimalString.NilZero.string_of_int (Z.to_int n)).

(* ===================================================================== *)
(** ** Numbers *)
(* ===================================================================== *)

(** [float(n)] for the small non-negative integers the program converts
    (counts and lengths, all far below 2^53, hence exact). *)
Definition float_of_int (n : Z) : float := PrimFloat.of_uint63 (Uint63.of_Z n).

(** [float(n)] for an integer of any sign and size, as a field of type
    [float] stores an integer it is given: the nearest binary64, ties to
    even. (An integer beyond the range of binary64, which [float] refuses,
    comes out as an infinity here.) *)
Definition float_of_Z (n : Z) : float :=
  SF2Prim (binary_normalize prec emax n 0 false).

(** [min(a, b)] of two floats: the first argument unless the second is
    strictly smaller. *)
Definition py_min (a b : float) : float := if (b <? a)%float then b else a.

(** [bool] summed as an integer *)
Definition int_of_bool (b : bool) : Z := if b then 1%Z else 0%Z.

(** [sum(...)] over integers, from [0] *)
Definition sum_int (l : list Z) : Z := fold_left Z.add l 0%Z.

(** [sum(...)] over floats, from [0] *)
Definition sum_float (l : list float) : float := fold_left PrimFloat.add l 0%float.

(* ===================================================================== *)
(** ** Dictionaries *)
(* ===================================================================== *)

(** A [dict] with string keys, in insertion order. *)
Definition dict (V : Type) := list (str * V).

Fixpoint dict_get (V : Type) (d : dict V) (k : str) : option V :=
  match d with
  | [] => None
  | (k', v) :: d' => if str_eqb k' k then Some v else dict_get d' k
  end.

(** [d[k] = v]: overwrite in place, or append. *)
Fixpoint dict_set (V : Type) (d : dict V) (k : str) (v : V) : dict V :=
  match d with
  | [] => [(k, v)]
  | (k', v') :: d' =>
      if str_eqb k' k then (k', v) :: d' else (k', v') :: dict_set d' k v
  end.

(** Truthiness of a dictionary: non-empty. *)
Definition dict_truthy (V : Type) (d : dict V) : bool :=
  match d with [] => false | _ :: _ => true end.

Definition dict_keys (V : Type) (d : dict V) : list str := map fst d.
Definition dict_values (V : Type) (d : dict V) : list V := map snd d.

(** The values a request context holds. *)
Inductive pyval :=
| PNone
| PStr (s : str)
| PInt (n : Z).

(** Truthiness of a value. *)
Definition truthy (v : pyval) : bool :=
  match v with
  | PNone => false
  | PStr s => str_truthy s
  | PInt n => negb (Z.eqb n 0)
  end.

(** [f"{value}"] *)
Definition format_value (v : pyval) : str :=
  match v with
  | PNone => str_of "None"
  | PStr s => s
  | PInt n => str_of_int n
  end.

(* ===================================================================== *)
(** ** The tone enumeration ([app/models/schemas.py]) *)
(* ===================================================================== *)

Inductive ToneType := PROFESSIONAL | FRIENDLY | FORMAL | EMPATHETIC | DIRECT.

Definition ToneType_members : list ToneType :=
  [PROFESSIONAL; FRIENDLY; FORMAL; EMPATHETIC; DIRECT].

(** [t.value] *)
Definition ToneType_value (t : ToneType) : str :=
  match t with
  | PROFESSIONAL => str_of "professional"
  | FRIENDLY => str_of "friendly"
  | FORMAL => str_of "formal"
  | EMPATHETIC => str_of "empathetic"
  | DIRECT => str_of "direct"
  end.

(** [ToneType] mixes in [str]: a member is truthy when its value is. *)
Definition ToneType_truthy (t : ToneType) : bool := str_truthy (ToneType_value t).

(** Lookup by value, as [ToneType(tone)] does; [None] is its [ValueError]. *)
Definition ToneType_lookup (tone : str) : option ToneType :=
  List.find (fun t => str_eqb (ToneType_value t) tone) ToneType_members.

(* ===================================================================== *)
(** ** Exceptions, log records and the monad of the services *)
(* ===================================================================== *)

Inductive exn :=
| AttributeError (what : str)
| ValueError (what : str)
| KeyError (key : str)
| ZeroDivisionError
| ValidationError (field : str)
(** a failure of the text-generation capability, with its message *)
| GenerationError (message : str).

Inductive level := DEBUG | INFO | WARNING | ERROR.

(** One constructor per message template of the services, carrying the
    values interpolated into it. *)
Inductive log_message :=
(** ["Tone detection scores: {scores}"] *)
| TONE_SCORES (scores : dict float)
(** ["Detected tone: {tone} with confidence: {confidence:.2f}"] *)
| DETECTED_TONE (tone : str) (confidence : float)
(** ["Auto-detected tone: {detected_tone}"] *)
| AUTO_DETECTED (tone : str)
(** ["Invalid tone '{tone}', falling back to professional"] *)
| INVALID_TONE (tone : str)
(** ["Generating email response with tone: {tone}"] *)
| GENERATING (tone : str)
(** ["Error generating email response: {str(e)}"] *)
| ERROR_GENERATING (e : exn)
(** ["Generating email response for request with tone: {request.tone}"] *)
| AGENT_REQUEST (tone : option ToneType)
(** ["Generated email response with status code: {response.status_code}"] *)
| AGENT_RESPONSE (status_code : Z).

Definition log_record : Type := level * log_message.

Inductive Result (A : Type) :=
| Ok (a : A)
| Raise (e : exn).
Arguments Raise {A} e.

(** What the services mutate: the log sink and the agent's [self.context]. *)
Record state := {
  log : list log_record;
  agent_context : dict str
}.

Definition initial_state : state := {| log := []; agent_context := [] |}.

(** A computation that may raise and that updates the state. *)
Definition M (A : Type) : Type := state -> Result A * state.

Definition ret (A : Type) (a : A) : M A := fun st => (Ok a, st).

Definition raise (A : Type) (e : exn) : M A := fun st => (Raise e, st).
Arguments raise {A} e.

Definition bind (A B : Type) (m : M A) (k : A -> M B) : M B :=
  fun st => match m st with
            | (Ok a, st') => k a st'
            | (Raise e, st') => (Raise e, st')
            end.

Definition logger (lvl : level) (msg : log_message) : M unit :=
  fun st => (Ok tt, {| log := log st ++ [(lvl, msg)];
                       agent_context := agent_context st |}).

(** [self.context[k] = v] *)
Definition context_set (k v : str) : M unit :=
  fun st => (Ok tt, {| log := log st;
                       agent_context := dict_set (agent_context st) k v |}).

(** [try: body  except <handles>: handler] *)
Definition try_except (A : Type) (body : M A) (handles : exn -> bool)
  (handler : exn -> M A) : M A :=
  fun st => match body st with
            | (Raise e, st') => if handles e then handler e st' else (Raise e, st')
            | r => r
            end.

Declare Scope monad_scope.
Delimit Scope monad_scope with monad.
Notation "x <- m ;; k" := (bind m (fun x => k))
  (at level 61, m at next level, right associativity) : monad_scope.
Notation "' p <- m ;; k" := (bind m (fun x => match x with p => k end))
  (at level 61, p pattern, m at next level, right associativity) : monad_scope.
Notation "m ;;; k" := (bind m (fun _ => k))
  (at level 61, right associativity) : monad_scope.
Open Scope monad_scope.

(** [d[k]], raising [KeyError] *)
Definition dict_item (V : Type) (d : dict V) (k : str) : M V :=
  match dict_get d k with
  | Some v => ret v
  | None => raise (KeyError k)
  end.

(** [a / b] on integers: true division, raising on a zero divisor. *)
Definition truediv (a b : Z) : M float :=
  if Z.eqb b 0 then raise ZeroDivisionError
  else ret (float_of_int a / float_of_int b)%float.

(** [x / n] for a float and an integer *)
Definition fdiv_int (x : float) (n : Z) : M float :=
  if Z.eqb n 0 then raise ZeroDivisionError
  else ret (x / float_of_int n)%float.

(* ===================================================================== *)
(** ** The application: conversation memory, HTTP errors and their monad *)
(* ===================================================================== *)

(** A message of the conversation memory, with its [type] and [content]. *)
Record chat_message := {
  msg_type : str;
  msg_content : str
}.

(** The conversation chain of the orchestration library, taken as it is
    used: from the memory and an input to a reply, or a failure, and the
    memory it leaves. *)
Definition chain : Type :=
  list chat_message -> str -> Result str * list chat_message.

(** What application code raises: an exception of the services, or an
    [HTTPException] with its status code and the two entries of its
    [detail], the second of which is a fixed text or [str(e)] of the
    exception that was caught. *)
Inductive raised :=
| EXN (e : exn)
| HTTPException (status : Z) (error : str) (details : detail_text)
with detail_text :=
| TEXT (s : str)
| STR (e : raised).

(** The log records of the application: those of the email path of the
    services, and one constructor per other message template. *)
Inductive app_message :=
| SERVICE (m : log_message)
(** [langchain_service]: ["Generating response for message: {message}"] *)
| GENERATING_RESPONSE (message : str)
(** [langchain_service]: ["Generated response: {response}"] *)
| CHAIN_RESPONSE (response : str)
(** [langchain_service]: ["Error generating response: {str(e)}"] *)
| ERROR_RESPONSE (e : raised)
(** [langchain_service]: ["Conversation memory cleared"] *)
| MEMORY_CLEARED
(** [ai_agent]: ["Processing message: {message}"] *)
| PROCESSING_MESSAGE (message : str)
(** [ai_agent]: ["Generated response: {response}"] *)
| AGENT_GENERATED (response : str)
(** [ai_agent]: ["Conversation cleared"] *)
| CONVERSATION_CLEARED
(** [ai_agent]: ["Health check failed: {str(e)}"] *)
| HEALTH_CHECK_FAILED (e : raised)
(** [endpoints]: ["Received chat request: {request.message}"] *)
| CHAT_REQUEST (message : str)
(** [endpoints]: ["HTTP error in chat request: {str(he)}"] *)
| HTTP_ERROR_CHAT (he : raised)
(** [endpoints]: ["Error processing chat request: {str(e)}"] *)
| ERROR_CHAT (e : raised)
(** [endpoints]: ["Received email response request with tone: {request.tone}"] *)
| EMAIL_REQUEST (tone : option ToneType)
(** [endpoints]: ["HTTP error in email response request: {str(he)}"] *)
| HTTP_ERROR_EMAIL (he : raised)
(** [endpoints]: ["Error generating email response: {str(e)}"] *)
| ERROR_EMAIL (e : raised)
(** [endpoints]: ["Error retrieving chat history: {str(e)}"] *)
| ERROR_HISTORY (e : raised)
(** [endpoints]: ["Error clearing chat history: {str(e)}"] *)
| ERROR_CLEAR (e : raised).

(** What the application mutates: the log sink, the agent's [self.context]
    and the messages of the conversation memory. *)
Record app_state := {
  app_log : list (level * app_message);
  app_context : dict str;
  chat_memory : list chat_message
}.

Definition initial_app_state : app_state :=
  {| app_log := []; app_context := []; chat_memory := [] |}.

Inductive outcome (A : Type) :=
| Return (a : A)
| Raised (r : raised).
Arguments Raised {A} r.

Definition App (A : Type) : Type := app_state -> outcome A * app_state.

Definition app_ret (A : Type) (a : A) : App A := fun st => (Return a, st).

Definition app_raise (A : Type) (r : raised) : App A := fun st => (Raised r, st).
Arguments app_raise {A} r.

Definition app_bind (A B : Type) (m : App A) (k : A -> App B) : App B :=
  fun st => match m st with
            | (Return a, st') => k a st'
            | (Raised r, st') => (Raised r, st')
            end.

Definition app_logger (lvl : level) (msg : app_message) : App unit :=
  fun st => (Return tt, {| app_log := app_log st ++ [(lvl, msg)];
                           app_context := app_context st;
                           chat_memory := chat_memory st |}).

(** [self.context[k] = v] *)
Definition app_context_set (k v : str) : App unit :=
  fun st => (Return tt, {| app_log := app_log st;
                           app_context := dict_set (app_context st) k v;
                           chat_memory := chat_memory st |}).

(** [try: body  except Exception as e: handler], the handler choosing by
    the class of [e] where the source has several clauses. *)
Definition app_try (A : Type) (body : App A) (handler : raised -> App A) : App A :=
  fun st => match body st with
            | (Raised r, st') => handler r st'
            | r => r
            end.

Definition of_result (A : Type) (r : Result A) : App A :=
  fun st => (match r with Ok a => Return a | Raise e => Raised (EXN e) end, st).

(** A computation of the services run inside the application: it sees the
    agent's context, its log records join the application's log in the
    order they were written, and what it raises is raised. *)
Definition lift (A : Type) (m : M A) : App A :=
  fun st =>
    let '(r, st') := m {| log := []; agent_context := app_context st |} in
    (match r with Ok a => Return a | Raise e => Raised (EXN e) end,
     {| app_log := app_log st ++ map (fun rec => (fst rec, SERVICE (snd rec))) (log st');
        app_context := agent_context st';
        chat_memory := chat_memory st |}).

(** [await self.conversation.apredict(input=message)] *)
Definition apredict (conversation : chain) (input : str) : App str :=
  fun st =>
    let '(r, memory) := conversation (chat_memory st) input in
    (match r with Ok a => Return a | Raise e => Raised (EXN e) end,
     {| app_log := app_log st;
        app_context := app_context st;
        chat_memory := memory |}).

Declare Scope app_scope.
Delimit Scope app_scope with app.
Notation "x <- m ;; k" := (app_bind m (fun x => k))
  (at level 61, m at next level, right associativity) : app_scope.
Notation "m ;;; k" := (app_bind m (fun _ => k))
  (at level 61, right associativity) : app_scope.

(* ===================================================================== *)
(** ** The pattern forms of the tone detector and [re.search] on them *)
(* ===================================================================== *)

(** The detector's regular expressions have two shapes. *)
Inductive pattern :=
(** [w1|w2|...], under [(?i)] when [ignorecase], and wrapped as
    [\b(?:w1|w2|...)\b] when [word_bounded] *)
| Alternatives (ignorecase word_bounded : bool) (words : list str)
(** [c{n,}] *)
| AtLeast (c : codepoint) (n : nat).

Section Regex.
Context {UD : UnicodeData}.

(** [\b] between the character [prev] before a position (if any) and the
    text [s] from it: exactly one side is a word character. *)
Definition word_boundary (prev : option codepoint) (s : str) : bool :=
  xorb (match prev with Some c => is_word c | None => false end)
       (match s with c :: _ => is_word c | [] => false end).

(** The literal [w] at the head of [s]: the last character read and the
    text left. *)
Fixpoint match_literal (ignorecase : bool) (w : str) (prev : option codepoint)
  (s : str) : option (option codepoint * str) :=
  match w, s with
  | [], _ => Some (prev, s)
  | p :: w', c :: s' =>
      if char_matches ignorecase p c
      then match_literal ignorecase w' (Some c) s'
      else None
  | _ :: _, [] => None
  end.

(** A match of the pattern that starts at the head of [s]. *)
Definition match_here (p : pattern) (prev : option codepoint) (s : str) : bool :=
  match p with
  | Alternatives ignorecase word_bounded words =>
      existsb (fun w =>
        (negb word_bounded || word_boundary prev s)
        && match match_literal ignorecase w prev s with
           | Some (prev', s') => negb word_bounded || word_boundary prev' s'
           | None => false
           end) words
  | AtLeast c n => startswith (repeat c n) s
  end.

(** Every start position in turn, left to right. *)
Fixpoint search_from (p : pattern) (prev : option codepoint) (s : str) : bool :=
  match_here p prev s
  || match s with
     | [] => false
     | c :: s' => search_from p (Some c) s'
     end.

(** [bool(re.search(pattern, text))] *)
Definition re_search (p : pattern) (text : str) : bool := search_from p None text.

End Regex.

(* ===================================================================== *)
(** ** [ToneDetector] ([app/services/tone_detector.py]) *)
(* ===================================================================== *)

Module ToneDetector.

(** [r'\b(?:URGENT|ASAP|EMERGENCY|CRITICAL|IMMEDIATE)\b'] *)
Definition urgency_words_upper : list str :=
  map str_of ["URGENT"; "ASAP"; "EMERGENCY"; "CRITICAL"; "IMMEDIATE"]%string.

(** [r'(?i)urgent|emergency|asap|right away|immediately|right now'] *)
Definition urgency_words : list str :=
  map str_of ["urgent"; "emergency"; "asap"; "right away"; "immediately";
              "right now"]%string.

Definition urgency_patterns : list pattern :=
  [ Alternatives false true urgency_words_upper;
    Alternatives true false urgency_words;
    AtLeast (chr "!") 2 ].

Definition complaint_patterns : list pattern :=
  [ Alternatives true false
      (map str_of ["disappointed"; "frustrated"; "angry"; "upset"; "terrible";
                   "worst"]%string);
    Alternatives true false
      (map str_of ["not acceptable"; "unacceptable"; "poor";
                   "bad experience"]%string);
    Alternatives true false
      (map str_of ["third time"; "again"; "still not"; "yet to"; "never"]%string);
    Alternatives true false
      (map str_of ["complaint"; "issue"; "problem"; "error"; "bug"; "failed";
                   "failure"]%string) ].

Definition formal_patterns : list pattern :=
  [ Alternatives true false
      (map str_of ["dear"; "sincerely"; "regards"; "pursuant";
                   "accordingly"]%string);
    Alternatives true false
      (map str_of ["request"; "inquire"; "regarding"; "concerning";
                   "matter"]%string);
    Alternatives true false
      (map str_of ["documentation"; "legal"; "compliance"; "policy";
                   "regulation"]%string) ].

(** U+1F60A, U+1F44D and U+1F64F: the three emoji of the last pattern. *)
Definition positive_emoji : list str := [[128522%N]; [128077%N]; [128591%N]].

Definition positive_patterns : list pattern :=
  [ Alternatives true false
      (map str_of ["thank"; "appreciate"; "great"; "good"; "excellent";
                   "wonderful"]%string);
    Alternatives true false
      (map str_of ["love"; "enjoy"; "pleased"; "happy"; "satisfied";
                   "helpful"]%string);
    Alternatives true false
      (map str_of ["feature request"; "suggestion"; "idea"; "feedback"]%string);
    Alternatives false false positive_emoji ].

(** The detection metadata: [{"detected_tone", "confidence", "factors"}]. *)
Record ToneDetection := {
  detected_tone : str;
  confidence : float;
  factors : dict float
}.

Section Methods.
Context {UD : UnicodeData}.

Definition _check_patterns (text : str) (patterns : list pattern) : M float :=
  let matches := sum_int (map (fun p => int_of_bool (re_search p text)) patterns) in
  q <- truediv matches (len patterns) ;;
  ret (py_min q 1%float).

Definition _analyze_message (message : str) : M (dict float) :=
  urgency <- _check_patterns message urgency_patterns ;;
  complaint <- _check_patterns message complaint_patterns ;;
  formality <- _check_patterns message formal_patterns ;;
  positivity <- _check_patterns message positive_patterns ;;
  ret [ (str_of "urgency", urgency);
        (str_of "complaint", complaint);
        (str_of "formality", formality);
        (str_of "positivity", positivity) ].

(** [context.get("priority").lower()]: only a string has [lower]. *)
Definition pyval_lower (v : pyval) : M str :=
  match v with
  | PStr s => ret (lower s)
  | PNone => raise (AttributeError (str_of "'NoneType' object has no attribute 'lower'"))
  | PInt _ => raise (AttributeError (str_of "'int' object has no attribute 'lower'"))
  end.

(** [context and context.get("priority")], as a truth value *)
Definition has_priority (context : option (dict pyval)) : option pyval :=
  match context with
  | Some d =>
      if dict_truthy d
      then match dict_get d (str_of "priority") with
           | Some v => if truthy v then Some v else None
           | None => None
           end
      else None
  | None => None
  end.

Definition detect_tone (message : str) (context : option (dict pyval))
  : M (str * ToneDetection) :=
  scores <- _analyze_message message ;;
  logger DEBUG (TONE_SCORES scores) ;;;
  priority <- match has_priority context with
              | Some v => pyval_lower v
              | None => ret (str_of "normal")
              end ;;
  '(tone, confidence) <-
     (urgency <- dict_item scores (str_of "urgency") ;;
      if (0.3 <? urgency)%float || str_eqb priority (str_of "critical")
      then confidence <- dict_item scores (str_of "urgency") ;;
           ret (str_of "direct", confidence)
      else
      complaint <- dict_item scores (str_of "complaint") ;;
      if (0.3 <? complaint)%float
      then confidence <- dict_item scores (str_of "complaint") ;;
           ret (str_of "empathetic", confidence)
      else
      formality <- dict_item scores (str_of "formality") ;;
      if (0.3 <? formality)%float
      then confidence <- dict_item scores (str_of "formality") ;;
           ret (str_of "formal", confidence)
      else
      positivity <- dict_item scores (str_of "positivity") ;;
      if (0.3 <? positivity)%float
      then confidence <- dict_item scores (str_of "positivity") ;;
           ret (str_of "friendly", confidence)
      else
      let non_zero_scores := filter (fun s => (0 <? s)%float) (dict_values scores) in
      confidence <- match non_zero_scores with
                    | _ :: _ => fdiv_int (sum_float non_zero_scores) (len non_zero_scores)
                    | [] => ret 0.5%float
                    end ;;
      ret (str_of "professional", confidence)) ;;
  let metadata := {| detected_tone := tone;
                     confidence := confidence;
                     factors := scores |} in
  logger INFO (DETECTED_TONE tone confidence) ;;;
  ret (tone, metadata).

End Methods.

End ToneDetector.
Import ToneDetector.

(* ===================================================================== *)
(** ** Requests and responses ([app/models/schemas.py]) *)
(* ===================================================================== *)

Record EmailContext := {
  customer_name : option str;
  customer_history : option str;
  account_type : option str;
  previous_interactions : option Z;
  priority : option str;
  department : option str;
  additional_notes : option str
}.

Definition opt_str (o : option str) : pyval :=
  match o with Some s => PStr s | None => PNone end.
Definition opt_int (o : option Z) : pyval :=
  match o with Some n => PInt n | None => PNone end.

(** [context.dict()]: every field, in declaration order. *)
Definition EmailContext_dict (c : EmailContext) : dict pyval :=
  [ (str_of "customer_name", opt_str (customer_name c));
    (str_of "customer_history", opt_str (customer_history c));
    (str_of "account_type", opt_str (account_type c));
    (str_of "previous_interactions", opt_int (previous_interactions c));
    (str_of "priority", opt_str (priority c));
    (str_of "department", opt_str (department c));
    (str_of "additional_notes", opt_str (additional_notes c)) ].

(** [context.dict(exclude_none=True)] *)
Definition EmailContext_dict_exclude_none (c : EmailContext) : dict pyval :=
  filter (fun kv => match snd kv with PNone => false | _ => true end)
         (EmailContext_dict c).

(** A validated request: [tone] is a member of the enumeration or absent. *)
Record EmailRequest := {
  customer_message : str;
  context : option EmailContext;
  tone : option ToneType;
  max_length : option Z
}.

Record EmailResponseMetadata := {
  tone_used : str;
  context_length : Z;
  generation_settings : dict float;
  tone_detection : option ToneDetection;
  timestamp : str
}.

Record EmailResponse := {
  message : str;
  status_code : Z;
  execution_time_ms : float;
  metadata : EmailResponseMetadata
}.

Record ChatResponse := {
  chat_response : str;
  chat_timestamp : str
}.

Record Message := {
  role : str;
  content : str
}.

Record StatusResponse := {
  status : str;
  version : str;
  status_timestamp : str
}.

Definition valid_statuses : list str :=
  map str_of ["running"; "error"; "maintenance"]%string.

(** The validator of [StatusResponse.status]. *)
Definition status_must_be_valid (v : str) : Result str :=
  if negb (existsb (str_eqb v) valid_statuses)
  then Raise (ValueError (str_of "Status must be one of: ['running', 'error', 'maintenance']"))
  else Ok v.

(** [StatusResponse(status=v)]: a failing validator makes the constructor
    raise the model's validation error. *)
Definition StatusResponse_new (now : str) (v : str) : Result StatusResponse :=
  match status_must_be_valid v with
  | Ok v' => Ok {| status := v'; version := str_of "1.0.0"; status_timestamp := now |}
  | Raise _ => Raise (ValidationError (str_of "status"))
  end.

(** [Message] from a dictionary: both fields are required. *)
Definition Message_of_dict (d : dict str) : Result Message :=
  match dict_get d (str_of "role"), dict_get d (str_of "content") with
  | Some r, Some c => Ok {| role := r; content := c |}
  | None, _ => Raise (ValidationError (str_of "role"))
  | _, None => Raise (ValidationError (str_of "content"))
  end.

(** [ConversationHistory(messages=messages)] *)
Fixpoint ConversationHistory_new (messages : list (dict str)) : Result (list Message) :=
  match messages with
  | [] => Ok []
  | d :: rest =>
      match Message_of_dict d with
      | Ok m => match ConversationHistory_new rest with
                | Ok ms => Ok (m :: ms)
                | Raise e => Raise e
                end
      | Raise e => Raise e
      end
  end.

(** [ToneDetectionMetadata]: [confidence] is declared [ge=0.0, le=1.0]. *)
Definition ToneDetectionMetadata_validate (d : ToneDetection) : M ToneDetection :=
  if ((0 <=? confidence d) && (confidence d <=? 1))%float
  then ret d
  else raise (ValidationError (str_of "confidence")).

(* ===================================================================== *)
(** ** Settings ([app/core/config.py]) *)
(* ===================================================================== *)

(** The model settings of [Settings]. The class is a [BaseSettings]: each
    value comes from the environment or the [.env] file when the process
    starts, and is the class default only when neither names it. *)
Record Settings := {
  TEMPERATURE : float;
  MAX_TOKENS : Z;
  TOP_P : float;
  TOP_K : Z
}.

(** The defaults written in the class. *)
Definition default_settings : Settings :=
  {| TEMPERATURE := 0.3%float;
     MAX_TOKENS := 4096;
     TOP_P := 0.9%float;
     TOP_K := 40 |}.

(* ===================================================================== *)
(** ** [LangChainService] ([app/services/langchain_service.py]) *)
(* ===================================================================== *)

Module LangChainService.

Definition TONE_GUIDELINES : dict str :=
  [ (ToneType_value PROFESSIONAL,
     str_of "Use a professional and polished tone. Be clear, concise, and business-appropriate.");
    (ToneType_value FRIENDLY,
     str_of "Use a warm and approachable tone. Be personable while maintaining professionalism.");
    (ToneType_value FORMAL,
     str_of "Use a formal and traditional tone. Be respectful and maintain appropriate distance.");
    (ToneType_value EMPATHETIC,
     str_of "Use an understanding and supportive tone. Show compassion and acknowledge feelings.");
    (ToneType_value DIRECT,
     str_of "Use a clear and straightforward tone. Be concise and get to the point quickly.") ].

(** A template of [str.format]: literal text and named fields. *)
Inductive segment :=
| Lit (text : str)
| Field (name : str).

Definition newline : string := String (ascii_of_nat 10) EmptyString.
Definition dquote : string := String (ascii_of_nat 34) EmptyString.

(** Lines joined by a line feed. *)
Fixpoint unlines (ls : list string) : string :=
  match ls with
  | [] => EmptyString
  | [l] => l
  | l :: ls' => (l ++ newline ++ unlines ls')%string
  end.

Definition email_template : list segment :=
  [ Lit (str_of (unlines
      [ "System: You are a customer support agent responding to customer inquiries. You must follow these rules strictly:";
        "1. Respond AS A SUPPORT AGENT addressing the customer's concerns";
        "2. Output ONLY the email response";
        "3. Do not include any explanations or thinking process";
        "4. Do not use XML-like tags";
        "5. Start with " ++ dquote ++ "Dear [Customer's Name]," ++ dquote;
        "6. End with an appropriate signature";
        "7. Stay within character limits";
        "8. Maintain the specified tone";
        EmptyString;
        "SUPPORT AGENT GUIDELINES:";
        "- Immediately acknowledge the urgency/priority of the issue";
        "- Provide SPECIFIC, ACTIONABLE steps the customer can take";
        "- If it's a known issue, provide the current status and ETA";
        "- Include CONCRETE next steps (e.g., specific phone numbers, links, or procedures)";
        "- For urgent issues, provide immediate workarounds if available";
        "- Include your direct contact information and availability";
        "- Specify when the customer can expect updates or resolution";
        "- Sign off with your department name and case reference number";
        EmptyString;
        "RESPONSE STRUCTURE:";
        "1. Acknowledgment of the specific issue";
        "2. Immediate action items or workarounds";
        "3. Next steps and timeline";
        "4. Your contact information and availability";
        "5. Case reference or ticket number";
        EmptyString;
        "CONTEXT INFORMATION:";
        EmptyString ]%string));
    Field (str_of "context");
    Lit (str_of (unlines
      [ EmptyString; EmptyString; "TONE GUIDELINES:"; EmptyString ]%string));
    Field (str_of "tone_guidelines");
    Lit (str_of (unlines
      [ EmptyString; EmptyString; "CUSTOMER MESSAGE:"; EmptyString ]%string));
    Field (str_of "customer_message");
    Lit (str_of (unlines
      [ EmptyString; EmptyString;
        "REQUIREMENTS:";
        "1. Provide SPECIFIC, ACTIONABLE solutions";
        "2. Maintain the specified tone";
        "3. Be clear and well-structured";
        "4. Stay within " ]%string));
    Field (str_of "max_length");
    Lit (str_of (unlines
      [ " characters";
        "5. Include concrete next steps";
        "6. Reference relevant documentation";
        "7. Provide timeline expectations";
        "8. Include case/ticket reference";
        EmptyString;
        "Generate the support agent's email response below:" ]%string)) ].

(** [template.format(...)] with keyword arguments: the fields replaced by their values, the
    values themselves not read again. *)
Fixpoint format (template : list segment) (kwargs : dict str) : M str :=
  match template with
  | [] => ret []
  | Lit text :: rest =>
      tail <- format rest kwargs ;; ret (text ++ tail)
  | Field name :: rest =>
      value <- dict_item kwargs name ;;
      tail <- format rest kwargs ;; ret (value ++ tail)
  end.

(** The start and end markers of a thinking segment. *)
Definition think_open : str := str_of "<think>".
Definition think_close : str := str_of "</think>".

(** [message.split("</think>")[-1]] *)
Definition after_last_close (message : str) : str :=
  last_item (split_nonempty (chr "<") (str_of "/think>") message).

(** What the service is given by its surroundings: the configuration, the
    text-generation capability, the two readings of [time.time()], and the
    clock behind the timestamps. *)
Record Env := {
  settings : Settings;
  llm : str -> Result str;
  time_start : float;
  time_end : float;
  utcnow : str
}.

Definition _format_context (context : option EmailContext) : str :=
  match context with
  | None => str_of "No additional context provided."
  | Some c =>
      fold_left
        (fun context_str kv =>
           let formatted_key := title (replace_char (chr "_") (chr " ") (fst kv)) in
           context_str ++ str_of "- " ++ formatted_key ++ str_of ": "
             ++ format_value (snd kv) ++ str_of newline)
        (EmailContext_dict_exclude_none c)
        (str_of ("Customer Information:" ++ newline))
  end.

Section Methods.
Context {UD : UnicodeData}.
Variable env : Env.

(** Lines 145-158: the explicit tone, or the detected one with its metadata. *)
Definition resolve_tone (request : EmailRequest) : M (str * option ToneDetection) :=
  let tone := match tone request with
              | Some t => if ToneType_truthy t then Some (ToneType_value t) else None
              | None => None
              end in
  match tone with
  | None =>
      let context_dict := match context request with
                          | Some c => EmailContext_dict c
                          | None => []
                          end in
      '(detected_tone, detection_metadata) <-
         detect_tone (customer_message request) (Some context_dict) ;;
      logger INFO (AUTO_DETECTED detected_tone) ;;;
      ret (detected_tone, Some detection_metadata)
  | Some tone => ret (tone, None)
  end.

(** Lines 160-168: the tone as a member of the enumeration, with its value
    and guideline; [professional] when it is not one. *)
Definition validate_tone (tone : str) : M (ToneType * str * str) :=
  try_except
    (tone_type <- match ToneType_lookup tone with
                  | Some t => ret t
                  | None => raise (ValueError tone)
                  end ;;
     tone_guidelines <- dict_item TONE_GUIDELINES (ToneType_value tone_type) ;;
     ret (tone_type, tone, tone_guidelines))
    (fun e => match e with ValueError _ | KeyError _ => true | _ => false end)
    (fun _ =>
       logger WARNING (INVALID_TONE tone) ;;;
       let tone_type := PROFESSIONAL in
       let tone := ToneType_value tone_type in
       tone_guidelines <- dict_item TONE_GUIDELINES (ToneType_value tone_type) ;;
       ret (tone_type, tone, tone_guidelines)).

(** Lines 170-177: the prompt. *)
Definition build_prompt (request : EmailRequest) (tone_guidelines : str) : M str :=
  let context_str := _format_context (context request) in
  format email_template
    [ (str_of "context", context_str);
      (str_of "tone_guidelines", tone_guidelines);
      (str_of "customer_message", customer_message request);
      (str_of "max_length",
       str_of_int (match max_length request with
                   | Some n => if Z.eqb n 0 then 2048%Z else n
                   | None => 2048%Z
                   end)) ].

(** Lines 182-186: the generated text, trimmed and without its thinking
    segment. *)
Definition clean_response (text : str) : str :=
  let message := strip text in
  if contains think_open message
  then strip (after_last_close message)
  else message.

(** Lines 160-209, from a resolved tone on. *)
Definition respond_with_tone (request : EmailRequest) (tone : str)
  (tone_detection_metadata : option ToneDetection) : M EmailResponse :=
  '(_, tone, tone_guidelines) <- validate_tone tone ;;
  prompt <- build_prompt request tone_guidelines ;;
  logger DEBUG (GENERATING tone) ;;;
  text <- (fun st => (llm env prompt, st)) ;;
  let message := clean_response text in
  let execution_time := ((time_end env - time_start env) * 1000)%float in
  tone_detection <- match tone_detection_metadata with
                    | Some d => d' <- ToneDetectionMetadata_validate d ;; ret (Some d')
                    | None => ret None
                    end ;;
  let metadata := {| tone_used := tone;
                     context_length := len prompt;
                     generation_settings :=
                       [ (str_of "temperature", TEMPERATURE (settings env));
                         (str_of "max_tokens", float_of_Z (MAX_TOKENS (settings env)));
                         (str_of "top_p", TOP_P (settings env));
                         (str_of "top_k", float_of_Z (TOP_K (settings env))) ];
                     tone_detection := tone_detection;
                     timestamp := utcnow env |} in
  ret {| message := message;
         status_code := 200;
         execution_time_ms := execution_time;
         metadata := metadata |}.

Definition generate_email_response (request : EmailRequest) : M EmailResponse :=
  try_except
    ('(tone, tone_detection_metadata) <- resolve_tone request ;;
     respond_with_tone request tone tone_detection_metadata)
    (fun _ => true)
    (fun e => logger ERROR (ERROR_GENERATING e) ;;; raise e).

Variable conversation : chain.

Definition generate_response (message : str) : App str :=
  app_try
    (app_logger DEBUG (GENERATING_RESPONSE message) ;;;
     response <- apredict conversation message ;;
     app_logger DEBUG (CHAIN_RESPONSE response) ;;;
     app_ret (strip response))%app
    (fun e => app_logger ERROR (ERROR_RESPONSE e) ;;; app_raise e)%app.

Definition get_conversation_history : App (list chat_message) :=
  fun st => (Return (chat_memory st), st).

Definition clear_memory : App unit :=
  ((fun st => (Return tt, {| app_log := app_log st;
                             app_context := app_context st;
                             chat_memory := [] |})) ;;;
   app_logger INFO MEMORY_CLEARED)%app.

End Methods.

End LangChainService.
Import LangChainService.

(* ===================================================================== *)
(** ** The orchestrator on a request that was not validated *)
(* ===================================================================== *)

(** The annotation [request: EmailRequest] is not checked when the method
    runs. A request object that did not go through the validation of the
    model (built by [model_construct], or with [tone] assigned afterwards)
    can hold any object as its [tone]; line 147 tells four kinds apart. *)
Module Unvalidated.

Inductive tone_object :=
| NONE                     (* [None] *)
| MEMBER (t : ToneType)    (* a member of [ToneType] *)
| PLAIN (s : str)          (* a [str] that is no [ToneType]: it has no attribute [value] *)
| HOLDER (value : str).    (* an object of another class, truthy, whose
                              attribute [value] is a [str] *)

Record Request := {
  customer_message : str;
  context : option EmailContext;
  tone : tone_object;
  max_length : option Z
}.

(** The request object of a validated request. *)
Definition of_validated (request : EmailRequest) : Request :=
  let 'Build_EmailRequest message context tone max_length := request in
  Build_Request message context
    (match tone with Some t => MEMBER t | None => NONE end)
    max_length.

(** The attributes read from line 160 on: the message, the context and the
    length, which are taken to be of their declared types. *)
Definition as_validated (request : Request) : EmailRequest :=
  Build_EmailRequest (customer_message request) (context request)
    (match tone request with MEMBER t => Some t | _ => None end)
    (max_length request).

Section Methods.
Context {UD : UnicodeData}.
Variable env : Env.

(** Line 147: [request.tone.value if request.tone else None]. A [str] is
    truthy when it is not empty, and so is a member, which mixes in [str]. *)
Definition tone_value (o : tone_object) : M (option str) :=
  match o with
  | NONE => ret None
  | MEMBER t => ret (if ToneType_truthy t then Some (ToneType_value t) else None)
  | PLAIN s =>
      if str_truthy s
      then raise (AttributeError (str_of "'str' object has no attribute 'value'"))
      else ret None
  | HOLDER value => ret (Some value)
  end.

(** Lines 145-158. *)
Definition resolve_tone (request : Request) : M (str * option ToneDetection) :=
  tone <- tone_value (tone request) ;;
  match tone with
  | None =>
      let context_dict := match context request with
                          | Some c => EmailContext_dict c
                          | None => []
                          end in
      '(detected_tone, detection_metadata) <-
         detect_tone (customer_message request) (Some context_dict) ;;
      logger INFO (AUTO_DETECTED detected_tone) ;;;
      ret (detected_tone, Some detection_metadata)
  | Some tone => ret (tone, None)
  end.

Definition generate_email_response (request : Request) : M EmailResponse :=
  try_except
    ('(tone, tone_detection_metadata) <- resolve_tone request ;;
     respond_with_tone env (as_validated request) tone tone_detection_metadata)
    (fun _ => true)
    (fun e => logger ERROR (ERROR_GENERATING e) ;;; raise e).

End Methods.

End Unvalidated.

(* ===================================================================== *)
(** ** [AIAgent] ([app/services/ai_agent.py]) *)
(* ===================================================================== *)

Module AIAgent.

Section Methods.
Context {UD : UnicodeData}.
Variable env : Env.

(** [request.tone.value] *)
Definition tone_value_attr (t : option ToneType) : M str :=
  match t with
  | Some t => ret (ToneType_value t)
  | None => raise (AttributeError (str_of "'NoneType' object has no attribute 'value'"))
  end.

Definition generate_email_response (request : EmailRequest) : M EmailResponse :=
  logger DEBUG (AGENT_REQUEST (tone request)) ;;;
  context_set (str_of "last_email") (customer_message request) ;;;
  last_tone <- tone_value_attr (tone request) ;;
  context_set (str_of "last_tone") last_tone ;;;
  context_set (str_of "last_timestamp") (utcnow env) ;;;
  response <- LangChainService.generate_email_response env request ;;
  logger DEBUG (AGENT_RESPONSE (status_code response)) ;;;
  ret response.

Variable conversation : chain.

Definition process_message (message : str) : App str :=
  (app_logger DEBUG (PROCESSING_MESSAGE message) ;;;
   app_context_set (str_of "last_message") message ;;;
   app_context_set (str_of "last_timestamp") (utcnow env) ;;;
   response <- LangChainService.generate_response conversation message ;;
   app_logger DEBUG (AGENT_GENERATED response) ;;;
   app_ret response)%app.

Definition get_conversation_history : App (list (dict str)) :=
  (messages <- LangChainService.get_conversation_history ;;
   app_ret (map (fun msg => [ (str_of "role", msg_type msg);
                              (str_of "content", msg_content msg) ])
                messages))%app.

Definition clear_conversation : App unit :=
  (LangChainService.clear_memory ;;;
   (fun st => (Return tt, {| app_log := app_log st;
                             app_context := [];
                             chat_memory := chat_memory st |})) ;;;
   app_logger INFO CONVERSATION_CLEARED)%app.

Definition health_check : App bool :=
  app_try
    (text <- of_result (llm env (str_of "Hi")) ;;
     app_ret (str_truthy (strip text)))%app
    (fun e => app_logger ERROR (HEALTH_CHECK_FAILED e) ;;; app_ret false)%app.

End Methods.

End AIAgent.

(* ===================================================================== *)
(** ** The routes ([app/api/endpoints.py]) *)
(* ===================================================================== *)

Module endpoints.

Section Routes.
Context {UD : UnicodeData}.
Variable env : Env.
Variable conversation : chain.

Definition chat_with_ai (message : str) : App ChatResponse :=
  app_try
    (healthy <- AIAgent.health_check env ;;
     (if negb healthy
      then app_raise (HTTPException 503
                        (str_of "AI service is currently unavailable")
                        (TEXT (str_of "Service is not responding")))
      else app_ret tt) ;;;
     app_logger INFO (CHAT_REQUEST message) ;;;
     response <- AIAgent.process_message env conversation message ;;
     app_ret {| chat_response := response; chat_timestamp := utcnow env |})%app
    (fun e =>
       match e with
       | HTTPException _ _ _ =>
           (app_logger ERROR (HTTP_ERROR_CHAT e) ;;; app_raise e)%app
       | EXN _ =>
           (app_logger ERROR (ERROR_CHAT e) ;;;
            app_raise (HTTPException 500 (str_of "Internal server error") (STR e)))%app
       end).

Definition generate_email_response (request : EmailRequest) : App EmailResponse :=
  app_try
    (healthy <- AIAgent.health_check env ;;
     (if negb healthy
      then app_raise (HTTPException 503
                        (str_of "AI service is currently unavailable")
                        (TEXT (str_of "Service is not responding")))
      else app_ret tt) ;;;
     app_logger INFO (EMAIL_REQUEST (tone request)) ;;;
     response <- lift (AIAgent.generate_email_response env request) ;;
     app_ret response)%app
    (fun e =>
       match e with
       | HTTPException _ _ _ =>
           (app_logger ERROR (HTTP_ERROR_EMAIL e) ;;; app_raise e)%app
       | EXN _ =>
           (app_logger ERROR (ERROR_EMAIL e) ;;;
            app_raise (HTTPException 500 (str_of "Internal server error") (STR e)))%app
       end).

Definition get_chat_history : App (list Message) :=
  app_try
    (messages <- AIAgent.get_conversation_history ;;
     of_result (ConversationHistory_new messages))%app
    (fun e =>
       (app_logger ERROR (ERROR_HISTORY e) ;;;
        app_raise (HTTPException 500 (str_of "Failed to retrieve chat history") (STR e)))%app).

Definition clear_chat : App StatusResponse :=
  app_try
    (AIAgent.clear_conversation ;;;
     of_result (StatusResponse_new (utcnow env) (str_of "conversation cleared")))%app
    (fun e =>
       (app_logger ERROR (ERROR_CLEAR e) ;;;
        app_raise (HTTPException 500 (str_of "Failed to clear chat history") (STR e)))%app).

Definition get_status : App StatusResponse :=
  (is_healthy <- AIAgent.health_check env ;;
   if negb is_healthy
   then app_raise (HTTPException 503 (str_of "Service unhealthy")
                     (TEXT (str_of "AI service is not responding")))
   else of_result (StatusResponse_new (utcnow env) (str_of "running")))%app.

End Routes.

End endpoints.

(* ===================================================================== *)
(** ** Vocabulary of the statements *)
(* ===================================================================== *)

(** The members' values: the five tone labels. *)
Definition tone_labels : list str := map ToneType_value ToneType_members.

(** The four axes, in the order the detector scores them. *)
Definition axes : list str :=
  map str_of ["urgency"; "complaint"; "formality"; "positivity"]%string.

(** [w] occurs in [s]. *)
Definition occurs (w s : str) : Prop := exists pre post, s = pre ++ w ++ post.

(** The last character of a text, if any. *)
Definition last_char (s : str) : option codepoint :=
  match rev s with c :: _ => Some c | [] => None end.

(** The number of exclamation marks in a message. *)
Definition exclamation_marks (s : str) : nat :=
  length (filter (N.eqb (chr "!")) s).

(** The context's priority field, when the context has one. *)
Definition priority_field (context : option (dict pyval)) : option pyval :=
  match context with
  | Some d => dict_get d (str_of "priority")
  | None => None
  end.

(** The priority is a string, [None], or not given. *)
Definition priority_is_text (context : option (dict pyval)) : Prop :=
  forall n, priority_field context <> Some (PInt n).

(** The state with more log records. *)
Definition add_log (st : state) (records : list log_record) : state :=
  {| log := log st ++ records; agent_context := agent_context st |}.

(** The result of a computation and the log records it added. *)
Definition returns (A : Type) (m : M A) (st : state) (a : A)
  (records : list log_record) : Prop :=
  m st = (Ok a, add_log st records).

(** The character before the end of [pre], or [prev] when [pre] is empty. *)
Definition char_before (prev : option codepoint) (pre : str) : option codepoint :=
  last (map Some pre) prev.

(** Two exclamation marks in a row somewhere in the message. *)
Definition consecutive_exclamation_marks (message : str) : Prop :=
  occurs (str_of "!!") message.

(** No white space at the head of a text. *)
Definition no_space_at_head (s : str) : Prop :=
  match s with c :: _ => isspace c = false | [] => True end.

Definition all_space (s : str) : Prop := Forall (fun c => isspace c = true) s.

Section DetectorVocabulary.
Context {UD : UnicodeData}.

(** How many patterns of a list match somewhere in the text. *)
Definition count_matches (text : str) (patterns : list pattern) : nat :=
  length (filter (fun p => re_search p text) patterns).

(** [matched / total], capped at [1.0]. *)
Definition capped_ratio (matched total : nat) : float :=
  let q := (float_of_int (Z.of_nat matched) / float_of_int (Z.of_nat total))%float in
  if (1 <? q)%float then 1%float else q.

(** The score of an axis for a message, as the specification words it. *)
Definition axis_score (message : str) (patterns : list pattern) : float :=
  capped_ratio (count_matches message patterns) (length patterns).

(** The priority the rules look at: the field in lower case, ["normal"]
    when there is none. *)
Definition effective_priority (context : option (dict pyval)) : str :=
  match priority_field context with
  | Some (PStr s) => lower s
  | _ => str_of "normal"
  end.

(** The mean of the strictly positive scores. *)
Definition mean_of_positive (scores : list float) : float :=
  let positive := filter (fun s => (0 <? s)%float) scores in
  (sum_float positive / float_of_int (len positive))%float.

(** The ordered decision rules, as the specification lists them: each rule
    applies only when none before it does. *)
Inductive tone_rule (urgency complaint formality positivity : float)
  (priority : str) : str -> float -> Prop :=
| rule_direct :
    (0.3 <? urgency)%float = true \/ priority = str_of "critical" ->
    tone_rule urgency complaint formality positivity priority
      (str_of "direct") urgency
| rule_empathetic :
    (0.3 <? urgency)%float = false -> priority <> str_of "critical" ->
    (0.3 <? complaint)%float = true ->
    tone_rule urgency complaint formality positivity priority
      (str_of "empathetic") complaint
| rule_formal :
    (0.3 <? urgency)%float = false -> priority <> str_of "critical" ->
    (0.3 <? complaint)%float = false ->
    (0.3 <? formality)%float = true ->
    tone_rule urgency complaint formality positivity priority
      (str_of "formal") formality
| rule_friendly :
    (0.3 <? urgency)%float = false -> priority <> str_of "critical" ->
    (0.3 <? complaint)%float = false ->
    (0.3 <? formality)%float = false ->
    (0.3 <? positivity)%float = true ->
    tone_rule urgency complaint formality positivity priority
      (str_of "friendly") positivity
| rule_professional_mean :
    (0.3 <? urgency)%float = false -> priority <> str_of "critical" ->
    (0.3 <? complaint)%float = false ->
    (0.3 <? formality)%float = false ->
    (0.3 <? positivity)%float = false ->
    ~ (urgency = 0%float /\ complaint = 0%float
       /\ formality = 0%float /\ positivity = 0%float) ->
    tone_rule urgency complaint formality positivity priority
      (str_of "professional")
      (mean_of_positive [urgency; complaint; formality; positivity])
| rule_professional_default :
    (0.3 <? urgency)%float = false -> priority <> str_of "critical" ->
    urgency = 0%float -> complaint = 0%float ->
    formality = 0%float -> positivity = 0%float ->
    tone_rule urgency complaint formality positivity priority
      (str_of "professional") 0.5%float.

(** Lines 75-92 as one expression over the four scores and the outcome of
    the priority test. *)
Definition decision (urgency complaint formality positivity : float)
  (critical : bool) : str * float :=
  if (0.3 <? urgency)%float || critical then (str_of "direct", urgency)
  else if (0.3 <? complaint)%float then (str_of "empathetic", complaint)
  else if (0.3 <? formality)%float then (str_of "formal", formality)
  else if (0.3 <? positivity)%float then (str_of "friendly", positivity)
  else (str_of "professional",
        match filter (fun s => (0 <? s)%float)
                     [urgency; complaint; formality; positivity] with
        | [] => 0.5%float
        | l => (sum_float l / float_of_int (len l))%float
        end).

(** The score map of a message. *)
Definition score_map (message : str) : dict float :=
  combine axes
    [ axis_score message urgency_patterns;
      axis_score message complaint_patterns;
      axis_score message formal_patterns;
      axis_score message positive_patterns ].

(** Whether the priority test of line 76 succeeds. *)
Definition is_critical (context : option (dict pyval)) : bool :=
  match has_priority context with
  | Some (PStr s) => str_eqb (lower s) (str_of "critical")
  | _ => false
  end.

(** What [detect_tone] returns for a message and a context. *)
Definition detection (message : str) (context : option (dict pyval))
  : str * ToneDetection :=
  let '(tone, confidence) :=
    decision (axis_score message urgency_patterns)
             (axis_score message complaint_patterns)
             (axis_score message formal_patterns)
             (axis_score message positive_patterns)
             (is_critical context) in
  (tone, {| detected_tone := tone;
            confidence := confidence;
            factors := score_map message |}).

(** The text [body] spells the literal [w], character for character. *)
Definition spells (ignorecase : bool) (w body : str) : Prop :=
  Forall2 (fun p c => char_matches ignorecase p c = true) w body.

(** [w] occurs in the message, letter case ignored. *)
Definition occurs_ignoring_case (w message : str) : Prop :=
  exists pre body post,
    message = pre ++ body ++ post /\ spells true w body.

(** [w] occurs in the message as a word of its own: no word character
    right before it or right after it. *)
Definition occurs_as_word (w message : str) : Prop :=
  exists pre post,
    message = pre ++ w ++ post
    /\ match last_char pre with Some c => is_word c = false | None => True end
    /\ match post with c :: _ => is_word c = false | [] => True end.

(** An urgency keyword: one of the upper-case words of the first urgency
    pattern standing alone, or one of the words of the second in any
    letter case. *)
Definition urgency_keyword (message : str) : Prop :=
  (exists w, In w urgency_words_upper /\ occurs_as_word w message)
  \/ (exists w, In w urgency_words /\ occurs_ignoring_case w message).

End DetectorVocabulary.

(** *** The response orchestrator *)

(** The literal pieces of the email template, in order. *)
Definition template_literals : list str :=
  flat_map (fun seg => match seg with Lit text => [text] | Field _ => [] end)
           email_template.

Definition template_literal (i : nat) : str := nth i template_literals [].

(** The characters of the template outside its four fields. *)
Definition template_length : Z := len (concat template_literals).

(** [request.max_length or 2048] *)
Definition effective_max_length (request : EmailRequest) : Z :=
  match max_length request with
  | Some n => if Z.eqb n 0 then 2048%Z else n
  | None => 2048%Z
  end.

(** The assembled prompt: the template with its four fields filled in. *)
Definition prompt_text (request : EmailRequest) (tone_guidelines : str) : str :=
  template_literal 0 ++ _format_context (context request)
  ++ template_literal 1 ++ tone_guidelines
  ++ template_literal 2 ++ customer_message request
  ++ template_literal 3 ++ str_of_int (effective_max_length request)
  ++ template_literal 4.

(** The guideline sentence of a tone. *)
Definition guideline (t : ToneType) : str :=
  match dict_get TONE_GUIDELINES (ToneType_value t) with
  | Some g => g
  | None => []
  end.

(** The response built at lines 188-209. *)
Definition response_for (env : Env) (tone prompt text : str)
  (tone_detection : option ToneDetection) : EmailResponse :=
  {| message := clean_response text;
     status_code := 200;
     execution_time_ms := ((time_end env - time_start env) * 1000)%float;
     metadata :=
       {| tone_used := tone;
          context_length := len prompt;
          generation_settings :=
            [ (str_of "temperature", TEMPERATURE (settings env));
              (str_of "max_tokens", float_of_Z (MAX_TOKENS (settings env)));
              (str_of "top_p", TOP_P (settings env));
              (str_of "top_k", float_of_Z (TOP_K (settings env))) ];
          tone_detection := tone_detection;
          timestamp := utcnow env |} |}.

(** The detection metadata passes the validation of the response model. *)
Definition valid_detection (md : option ToneDetection) : Prop :=
  match md with
  | Some d => ((0 <=? confidence d) && (confidence d <=? 1))%float = true
  | None => True
  end.

(** What the detector is called with at lines 151-155. *)
Definition detector_context (request : EmailRequest) : option (dict pyval) :=
  Some (match context request with
        | Some c => EmailContext_dict c
        | None => []
        end).

(** *** The context block *)

(** The label and the value of every field of a context, in declaration
    order. *)
Definition context_fields (c : EmailContext) : list (str * pyval) :=
  [ (str_of "Customer Name", opt_str (customer_name c));
    (str_of "Customer History", opt_str (customer_history c));
    (str_of "Account Type", opt_str (account_type c));
    (str_of "Previous Interactions", opt_int (previous_interactions c));
    (str_of "Priority", opt_str (priority c));
    (str_of "Department", opt_str (department c));
    (str_of "Additional Notes", opt_str (additional_notes c)) ].

(** A field that was given a value. *)
Definition is_set (v : pyval) : bool :=
  match v with PNone => false | _ => true end.

(** One line of the context block. *)
Definition context_line (field : str * pyval) : str :=
  str_of "- " ++ fst field ++ str_of ": " ++ format_value (snd field)
  ++ str_of newline.

(** *** The application *)

(** The application state with more log records. *)
Definition app_add_log (st : app_state) (records : list (level * app_message))
  : app_state :=
  {| app_log := app_log st ++ records;
     app_context := app_context st;
     chat_memory := chat_memory st |}.

(** The generation capability answers the probe ["Hi"] with a text that is
    not blank. *)
Definition healthy (env : Env) : Prop :=
  exists text, llm env (str_of "Hi") = Ok text /\ ~ all_space text.

(** What the routes raise when the probe fails. *)
Definition unavailable : raised :=
  HTTPException 503 (str_of "AI service is currently unavailable")
    (TEXT (str_of "Service is not responding")).

(** What the chat and email routes raise for an exception [e]. *)
Definition internal_error (e : exn) : raised :=
  HTTPException 500 (str_of "Internal server error") (STR (EXN e)).

(** The exception of [request.tone.value] on a missing tone. *)
Definition no_tone_error : exn :=
  AttributeError (str_of "'NoneType' object has no attribute 'value'").

(** A route answers, or raises an [HTTPException] with status 500 or 503. *)
Definition http_outcome (A : Type) (o : outcome A) : Prop :=
  match o with
  | Return _ => True
  | Raised (HTTPException code _ _) => code = 500%Z \/ code = 503%Z
  | Raised (EXN _) => False
  end.

(** The transcript as the history route returns it. *)
Definition transcript (memory : list chat_message) : list Message :=
  map (fun m => {| role := msg_type m; content := msg_content m |}) memory.

(** The three entries the agent records for an email request. *)
Definition email_keys : list str :=
  map str_of ["last_email"; "last_tone"; "last_timestamp"]%string.

(** *** Sample inputs *)

(** A message with two exclamation marks that are not next to each other. *)
Definition two_separate_marks : str := str_of "Hi! Bye!".

(** The scenario of the specification: urgency and complaint together. *)
Definition locked_account : str :=
  str_of "URGENT!! My account is locked, this is unacceptable!!!".

(** A critical priority on a message without any urgency trigger. *)
Definition critical_context : option (dict pyval) :=
  Some [(str_of "priority", PStr (str_of "CRITICAL"))].

(** One complaint word and nothing else. *)
Definition mild_complaint : str := str_of "this is critical, an issue".

Definition mild_complaint_result : Result (str * ToneDetection) * state :=
  detect_tone (UD := ascii_only) mild_complaint None initial_state.

(** A reply whose answer mentions the end marker again. *)
Definition stray_close : str := str_of "<think>a</think>b</think>c".

(** A reply with its reasoning in front. *)
Definition reasoned_reply : str := str_of "  <think>plan</think> Dear Ann, done.  ".

(** A generation capability that answers every prompt with the same reply. *)
Definition canned_env : Env :=
  {| settings := default_settings;
     llm := fun _ => Ok reasoned_reply;
     time_start := 10%float;
     time_end := 12%float;
     utcnow := str_of "2024-01-01T00:00:00" |}.

(** An urgent message sent with an explicit formal tone. *)
Definition formal_request : EmailRequest :=
  {| customer_message := locked_account;
     context := None;
     tone := Some FORMAL;
     max_length := None |}.

(** The same message with a customer context and no tone. *)
Definition auto_request : EmailRequest :=
  {| customer_message := locked_account;
     context := Some {| customer_name := Some (str_of "Ann");
                        customer_history := None;
                        account_type := Some (str_of "gold");
                        previous_interactions := Some 3%Z;
                        priority := None;
                        department := None;
                        additional_notes := None |};
     tone := None;
     max_length := Some 1000%Z |}.

Definition auto_run : Result EmailResponse * state :=
  generate_email_response (UD := ascii_only) canned_env auto_request initial_state.

Definition auto_response : EmailResponse :=
  response_for canned_env (str_of "direct")
    (prompt_text auto_request (guideline DIRECT)) reasoned_reply
    (Some (snd (detection (UD := ascii_only) locked_account
                  (detector_context auto_request)))).

(** The same message on a request object that was not validated, its tone
    a plain string. *)
Definition plain_angry_request : Unvalidated.Request :=
  Unvalidated.Build_Request locked_account None
    (Unvalidated.PLAIN (str_of "angry")) None.

(** The same, its tone an object of another class whose value is "angry". *)
Definition foreign_angry_request : Unvalidated.Request :=
  Unvalidated.Build_Request locked_account None
    (Unvalidated.HOLDER (str_of "angry")) None.

(** A configuration that sets the temperature and the number of tokens. *)
Definition tuned_env : Env :=
  {| settings := {| TEMPERATURE := 0.7%float;
                    MAX_TOKENS := 512;
                    TOP_P := 0.9%float;
                    TOP_K := 40 |};
     llm := fun _ => Ok reasoned_reply;
     time_start := 10%float;
     time_end := 12%float;
     utcnow := str_of "2024-01-01T00:00:00" |}.

(** A generation capability that is down. *)
Definition failing_env : Env :=
  {| settings := default_settings;
     llm := fun _ => Raise (GenerationError (str_of "connection refused"));
     time_start := 10%float;
     time_end := 12%float;
     utcnow := str_of "2024-01-01T00:00:00" |}.

(** A chain that answers every input with the same padded reply and
    records the exchange. *)
Definition canned_chain : chain :=
  fun memory input =>
    (Ok (str_of "  Hello!  "),
     memory ++ [ {| msg_type := str_of "human"; msg_content := input |};
                 {| msg_type := str_of "ai"; msg_content := str_of "  Hello!  " |} ]).

(** A context dictionary whose priority is a number. *)
Definition numeric_priority : option (dict pyval) :=
  Some [(str_of "priority", PInt 2)].

(** A message with two complaint words. *)
Definition angry_message : str := str_of "I am frustrated, this is a problem".

Definition angry_result : Result (str * ToneDetection) * state :=
  detect_tone (UD := ascii_only) angry_message None initial_state.

Definition angry_detection : ToneDetection :=
  {| detected_tone := str_of "empathetic";
     confidence := 0.5%float;
     factors := combine axes [0; 0.5; 0; 0]%float |}.

(** A reply whose thinking segment is not closed. *)
Definition unclosed_reply : str := str_of " <think>still thinking ".

(** A context with a name and a count of interactions. *)
Definition short_context : EmailContext :=
  {| customer_name := Some (str_of "Ann");
     customer_history := None;
     account_type := None;
     previous_interactions := Some 3%Z;
     priority := None;
     department := None;
     additional_notes := None |}.

(* ===================================================================== *)
(** ** Facts about text *)
(* ===================================================================== *)

Lemma str_eqb_eq (a b : str) : str_eqb a b = true <-> a = b.
Proof.
  revert b; induction a as [|x a IH]; intros [|y b]; simpl; split;
    try congruence; try discriminate; try reflexivity.
  - intros H. apply andb_prop in H as [Hx Ha].
    apply N.eqb_eq in Hx. apply IH in Ha. congruence.
  - intros [= -> ->]. rewrite N.eqb_refl. simpl. now apply IH.
Qed.

Lemma str_eqb_refl (a : str) : str_eqb a a = true.
Proof. now apply str_eqb_eq. Qed.

(* ===================================================================== *)
(** ** Facts about the tone detector *)
(* ===================================================================== *)

Section DetectorFacts.
Context {UD : UnicodeData}.

Lemma sum_int_from (l : list Z) (a : Z) :
  fold_left Z.add l a = (a + sum_int l)%Z.
Proof.
  unfold sum_int. revert a. induction l as [|x l IH]; intros a; simpl.
  - lia.
  - rewrite IH, (IH x). lia.
Qed.

Lemma sum_matches_count (text : str) (patterns : list pattern) :
  sum_int (map (fun p => int_of_bool (re_search p text)) patterns)
  = Z.of_nat (count_matches text patterns).
Proof.
  unfold count_matches.
  induction patterns as [|p ps IH]; [reflexivity|].
  cbn [map filter]. unfold sum_int at 1. cbn [fold_left].
  rewrite sum_int_from, IH.
  destruct (re_search p text); cbn [int_of_bool length]; lia.
Qed.

Lemma count_matches_le (text : str) (patterns : list pattern) :
  (count_matches text patterns <= length patterns)%nat.
Proof. apply filter_length_le. Qed.

(** [_check_patterns] never raises on a non-empty list and computes the
    capped ratio. *)
Lemma check_patterns_run (text : str) (patterns : list pattern) (st : state) :
  patterns <> [] ->
  _check_patterns text patterns st = (Ok (axis_score text patterns), st).
Proof.
  intros Hne. unfold _check_patterns, bind, truediv, axis_score, capped_ratio.
  rewrite sum_matches_count.
  destruct patterns as [|p ps]; [contradiction|].
  unfold len. simpl length.
  replace (Z.of_nat (S (length ps)) =? 0)%Z with false
    by (symmetry; apply Z.eqb_neq; lia).
  reflexivity.
Qed.

Lemma analyze_message_run (message : str) (st : state) :
  _analyze_message message st = (Ok (score_map message), st).
Proof.
  unfold _analyze_message, bind.
  rewrite !check_patterns_run by discriminate. reflexivity.
Qed.

End DetectorFacts.

Section DetectorRun.
Context {UD : UnicodeData}.

Lemma score_map_items (message : str) (st : state) :
  dict_item (score_map message) (str_of "urgency") st
    = (Ok (axis_score message urgency_patterns), st)
  /\ dict_item (score_map message) (str_of "complaint") st
    = (Ok (axis_score message complaint_patterns), st)
  /\ dict_item (score_map message) (str_of "formality") st
    = (Ok (axis_score message formal_patterns), st)
  /\ dict_item (score_map message) (str_of "positivity") st
    = (Ok (axis_score message positive_patterns), st).
Proof. repeat split; reflexivity. Qed.

Lemma has_priority_field (context : option (dict pyval)) (v : pyval) :
  has_priority context = Some v -> priority_field context = Some v /\ truthy v = true.
Proof.
  unfold has_priority, priority_field.
  destruct context as [d|]; [|discriminate].
  destruct (dict_truthy d); [|discriminate].
  destruct (dict_get d (str_of "priority")) as [w|]; [|discriminate].
  destruct (truthy w) eqn:E; [|discriminate].
  intros [= <-]. auto.
Qed.

(** The priority test of line 76 is the comparison of the effective
    priority with ["critical"]. *)
Lemma is_critical_spec (context : option (dict pyval)) :
  is_critical context = true <-> effective_priority context = str_of "critical".
Proof.
  unfold is_critical, effective_priority.
  destruct (has_priority context) as [v|] eqn:E.
  - apply has_priority_field in E as [-> Ht].
    destruct v as [|s|n]; try (split; discriminate).
    apply str_eqb_eq.
  - unfold has_priority, priority_field in *.
    destruct context as [d|]; [|split; discriminate].
    destruct d as [|kv d]; [split; discriminate|]. cbn [dict_truthy] in E.
    destruct (dict_get (kv :: d) (str_of "priority")) as [[|s|n]|];
      try (split; discriminate).
    cbn [truthy] in E. destruct s; [|discriminate].
    split; discriminate.
Qed.

(** [detect_tone] returns for every message unless it has to lower a
    priority that is a number; it adds two log records and its result is
    [detection]. *)
Lemma detect_tone_run (message : str) (context : option (dict pyval)) (st : state) :
  (forall n, has_priority context <> Some (PInt n)) ->
  returns (detect_tone message context) st (detection message context)
    [ (DEBUG, TONE_SCORES (score_map message));
      (INFO, DETECTED_TONE (fst (detection message context))
                           (confidence (snd (detection message context)))) ].
Proof.
  intros Htext. unfold returns, detect_tone, bind.
  rewrite analyze_message_run. cbn [logger].
  set (st1 := {| log := log st ++ [(DEBUG, TONE_SCORES (score_map message))];
                 agent_context := agent_context st |}).
  assert (Hp : exists priority,
             match has_priority context with
             | Some v => pyval_lower v
             | None => ret (str_of "normal")
             end st1 = (Ok priority, st1)
             /\ str_eqb priority (str_of "critical") = is_critical context).
  { unfold is_critical. destruct (has_priority context) as [v|] eqn:E.
    - destruct v as [|s|n]; [|eexists; split; reflexivity|destruct (Htext n eq_refl)].
      apply has_priority_field in E as [_ Ht]. discriminate.
    - eexists; split; reflexivity. }
  destruct Hp as (priority & -> & Hc).
  destruct (score_map_items message st1) as (Hu & Hco & Hf & Hpo).
  unfold detection, decision. rewrite Hu, Hc.
  destruct ((0.3 <? axis_score message urgency_patterns)%float || is_critical context).
  { rewrite Hu. cbn. unfold st1. cbn. rewrite <- app_assoc. reflexivity. }
  rewrite Hco.
  destruct (0.3 <? axis_score message complaint_patterns)%float.
  { rewrite Hco. cbn. unfold st1. cbn. rewrite <- app_assoc. reflexivity. }
  rewrite Hf.
  destruct (0.3 <? axis_score message formal_patterns)%float.
  { rewrite Hf. cbn. unfold st1. cbn. rewrite <- app_assoc. reflexivity. }
  rewrite Hpo.
  destruct (0.3 <? axis_score message positive_patterns)%float.
  { rewrite Hpo. cbn. unfold st1. cbn. rewrite <- app_assoc. reflexivity. }
  change (dict_values (score_map message))
    with [axis_score message urgency_patterns; axis_score message complaint_patterns;
          axis_score message formal_patterns; axis_score message positive_patterns].
  destruct (filter (fun s => (0 <? s)%float) _) as [|x l].
  { cbn. unfold st1. cbn. rewrite <- app_assoc. reflexivity. }
  unfold fdiv_int, len. cbn [length].
  replace (Z.of_nat (S (length l)) =? 0)%Z with false
    by (symmetry; apply Z.eqb_neq; lia).
  cbn. unfold st1. cbn. rewrite <- app_assoc. reflexivity.
Qed.

Lemma priority_is_text_lowers (context : option (dict pyval)) :
  priority_is_text context -> forall n, has_priority context <> Some (PInt n).
Proof.
  intros H n E. apply has_priority_field in E as [E _]. exact (H n E).
Qed.

(** A truthy priority that is a number has no [lower]. *)
Lemma detect_tone_raises (message : str) (context : option (dict pyval))
  (n : Z) (st : state) :
  has_priority context = Some (PInt n) ->
  exists e st', detect_tone message context st = (Raise e, st').
Proof.
  intros E. unfold detect_tone, bind.
  rewrite analyze_message_run. cbn [logger]. rewrite E.
  eexists; eexists; reflexivity.
Qed.

(** Whenever [detect_tone] returns, it returns [detection]. *)
Lemma detect_tone_inv (message : str) (context : option (dict pyval))
  (st st' : state) (r : str * ToneDetection) :
  detect_tone message context st = (Ok r, st') ->
  r = detection message context.
Proof.
  intros H.
  destruct (has_priority context) as [[|s|n]|] eqn:E.
  4: { assert (Hn : forall n, has_priority context <> Some (PInt n)) by congruence.
       apply (detect_tone_run message) with (st := st) in Hn.
       unfold returns in Hn. congruence. }
  3: { destruct (detect_tone_raises message context st E) as (e & st'' & Hr).
       congruence. }
  all: assert (Hn : forall n, has_priority context <> Some (PInt n)) by congruence;
       apply (detect_tone_run message) with (st := st) in Hn;
       unfold returns in Hn; congruence.
Qed.

End DetectorRun.

(* ===================================================================== *)
(** ** The values a score can take *)
(* ===================================================================== *)

(** With three patterns a score is [0] or already above the threshold. *)
Lemma ratio3_cases (k : nat) :
  (k <= 3)%nat ->
  capped_ratio k 3 = 0%float \/ (0.3 <? capped_ratio k 3)%float = true.
Proof.
  intros H. do 4 (destruct k as [|k]; [auto|]). lia.
Qed.

(** With four patterns a single match stays below the threshold. *)
Lemma ratio4_cases (k : nat) :
  (k <= 4)%nat ->
  capped_ratio k 4 = 0%float \/ capped_ratio k 4 = 0.25%float
  \/ (0.3 <? capped_ratio k 4)%float = true.
Proof.
  intros H. do 5 (destruct k as [|k]; [auto|]). lia.
Qed.

Lemma ratio3_unit (k : nat) :
  (k <= 3)%nat ->
  ((0 <=? capped_ratio k 3) && (capped_ratio k 3 <=? 1))%float = true.
Proof.
  intros H. do 4 (destruct k as [|k]; [reflexivity|]). lia.
Qed.

Lemma ratio4_unit (k : nat) :
  (k <= 4)%nat ->
  ((0 <=? capped_ratio k 4) && (capped_ratio k 4 <=? 1))%float = true.
Proof.
  intros H. do 5 (destruct k as [|k]; [reflexivity|]). lia.
Qed.

(** A positive number of matches puts a three-pattern score above [0.3]. *)
Lemma ratio3_positive (k : nat) :
  (1 <= k <= 3)%nat -> (0.3 <? capped_ratio k 3)%float = true.
Proof.
  intros H. destruct k as [|k]; [lia|].
  do 3 (destruct k as [|k]; [reflexivity|]). lia.
Qed.

Section ScoreValues.
Context {UD : UnicodeData}.

Lemma urgency_cases (message : str) :
  axis_score message urgency_patterns = 0%float
  \/ (0.3 <? axis_score message urgency_patterns)%float = true.
Proof. apply ratio3_cases, (count_matches_le message urgency_patterns). Qed.

Lemma formality_cases (message : str) :
  axis_score message formal_patterns = 0%float
  \/ (0.3 <? axis_score message formal_patterns)%float = true.
Proof. apply ratio3_cases, (count_matches_le message formal_patterns). Qed.

Lemma complaint_cases (message : str) :
  axis_score message complaint_patterns = 0%float
  \/ axis_score message complaint_patterns = 0.25%float
  \/ (0.3 <? axis_score message complaint_patterns)%float = true.
Proof. apply ratio4_cases, (count_matches_le message complaint_patterns). Qed.

Lemma positivity_cases (message : str) :
  axis_score message positive_patterns = 0%float
  \/ axis_score message positive_patterns = 0.25%float
  \/ (0.3 <? axis_score message positive_patterns)%float = true.
Proof. apply ratio4_cases, (count_matches_le message positive_patterns). Qed.

(** Every axis score lies in [[0, 1]]. *)
Lemma axis_scores_unit (message : str) :
  Forall (fun s => ((0 <=? s) && (s <=? 1))%float = true)
         (dict_values (score_map message)).
Proof.
  repeat constructor.
  - apply ratio3_unit, (count_matches_le message urgency_patterns).
  - apply ratio4_unit, (count_matches_le message complaint_patterns).
  - apply ratio3_unit, (count_matches_le message formal_patterns).
  - apply ratio4_unit, (count_matches_le message positive_patterns).
Qed.

(** The shape of a decision that ends in ["professional"]. *)
Lemma decision_professional (message : str) (critical : bool) (c : float) :
  decision (axis_score message urgency_patterns)
           (axis_score message complaint_patterns)
           (axis_score message formal_patterns)
           (axis_score message positive_patterns) critical
    = (str_of "professional", c) ->
  critical = false
  /\ axis_score message urgency_patterns = 0%float
  /\ axis_score message formal_patterns = 0%float
  /\ (axis_score message complaint_patterns = 0%float
      \/ axis_score message complaint_patterns = 0.25%float)
  /\ (axis_score message positive_patterns = 0%float
      \/ axis_score message positive_patterns = 0.25%float)
  /\ (c = 0.25%float \/ c = 0.5%float)
  /\ (c = 0.5%float ->
      axis_score message complaint_patterns = 0%float
      /\ axis_score message positive_patterns = 0%float).
Proof.
  unfold decision.
  destruct (urgency_cases message) as [Hu|Hu]; rewrite Hu;
    [|cbn; discriminate].
  destruct critical; [cbn; discriminate|].
  destruct (complaint_cases message) as [Hc|[Hc|Hc]]; rewrite Hc;
    try (cbn; discriminate);
  (destruct (formality_cases message) as [Hf|Hf]; rewrite Hf;
    [|cbn; discriminate]);
  (destruct (positivity_cases message) as [Hp|[Hp|Hp]]; rewrite Hp;
    try (cbn; discriminate));
  cbn; intros [= <-]; repeat split; auto; try discriminate;
  intros E; exfalso; revert E; clear; intros E;
  apply (f_equal (fun x => (x =? 0.5)%float)) in E; discriminate E.
Qed.

End ScoreValues.

(* ===================================================================== *)
(** ** Facts about [re.search] *)
(* ===================================================================== *)

Lemma last_cons_default (A : Type) (l : list A) (x d : A) :
  last (x :: l) d = last l x.
Proof.
  revert x d. induction l as [|y l IH]; intros x d; [reflexivity|].
  change (last (x :: y :: l) d) with (last (y :: l) d).
  rewrite !IH. reflexivity.
Qed.

Lemma char_before_cons (prev : option codepoint) (c : codepoint) (pre : str) :
  char_before prev (c :: pre) = char_before (Some c) pre.
Proof. unfold char_before. simpl map. apply last_cons_default. Qed.

Lemma char_before_last_char (pre : str) :
  char_before None pre = last_char pre.
Proof.
  unfold last_char.
  induction pre as [|c pre IH] using rev_ind; [reflexivity|].
  rewrite rev_app_distr. simpl.
  clear IH. unfold char_before. rewrite map_app. simpl.
  apply last_last.
Qed.

Section RegexFacts.
Context {UD : UnicodeData}.

(** A search succeeds exactly when the pattern matches at some position:
    this is what it means for a pattern to match anywhere in a text. *)
Lemma search_from_spec (p : pattern) (prev : option codepoint) (s : str) :
  search_from p prev s = true
  <-> exists pre post, s = pre ++ post /\ match_here p (char_before prev pre) post = true.
Proof.
  revert prev. induction s as [|c s IH]; intros prev; simpl.
  - rewrite orb_false_r. split.
    + intros H. exists [], []. auto.
    + intros (pre & post & E & H).
      symmetry in E. apply app_eq_nil in E as [-> ->]. exact H.
  - split.
    + intros H. apply orb_prop in H as [H|H].
      * exists [], (c :: s). auto.
      * apply IH in H as (pre & post & -> & H).
        exists (c :: pre), post. rewrite char_before_cons. auto.
    + intros (pre & post & E & H). apply orb_true_iff.
      destruct pre as [|d pre].
      * left. simpl in E. subst post. exact H.
      * right. injection E as <- ->. apply IH.
        exists pre, post. rewrite char_before_cons in H. auto.
Qed.

Lemma re_search_spec (p : pattern) (text : str) :
  re_search p text = true
  <-> exists pre post, text = pre ++ post /\ match_here p (last_char pre) post = true.
Proof.
  unfold re_search. rewrite search_from_spec.
  split; intros (pre & post & E & H); exists pre, post;
    [rewrite <- char_before_last_char | rewrite char_before_last_char]; auto.
Qed.

(** A literal is read off the text character by character. *)
Lemma match_literal_app (ignorecase : bool) (w body post : str)
  (prev : option codepoint) :
  spells ignorecase w body ->
  match_literal ignorecase w prev (body ++ post) = Some (char_before prev body, post).
Proof.
  intros H. revert prev. induction H as [|p c w body Hc H IH]; intros prev.
  - destruct post; reflexivity.
  - simpl. rewrite Hc, IH, char_before_cons. reflexivity.
Qed.

(** A matching pattern of a list is counted. *)
Lemma count_matches_pos (text : str) (patterns : list pattern) (p : pattern) :
  In p patterns -> re_search p text = true ->
  (1 <= count_matches text patterns)%nat.
Proof.
  intros Hin Hs. unfold count_matches.
  assert (Hf : In p (filter (fun q => re_search q text) patterns))
    by (apply filter_In; auto).
  destruct (filter _ patterns); [destruct Hf | simpl; lia].
Qed.

End RegexFacts.

Section Keywords.
Context {UD : UnicodeData}.

Lemma exclamations_found (message : str) :
  consecutive_exclamation_marks message ->
  re_search (AtLeast (chr "!") 2) message = true.
Proof.
  intros (pre & post & ->). apply re_search_spec.
  exists pre, (str_of "!!" ++ post). split; [reflexivity|].
  reflexivity.
Qed.

Lemma keyword_found_ignoring_case (w message : str) (words : list str) :
  In w words -> occurs_ignoring_case w message ->
  re_search (Alternatives true false words) message = true.
Proof.
  intros Hin (pre & body & post & -> & Hm). apply re_search_spec.
  exists pre, (body ++ post). split; [reflexivity|].
  unfold match_here. apply existsb_exists. exists w. split; [exact Hin|].
  rewrite (match_literal_app _ _ Hm). reflexivity.
Qed.

Lemma spells_itself (w : str) : spells false w w.
Proof. induction w; constructor; auto. apply N.eqb_refl. Qed.

Lemma keyword_found_as_word (w message : str) :
  In w urgency_words_upper -> occurs_as_word w message ->
  re_search (Alternatives false true urgency_words_upper) message = true.
Proof.
  intros Hin (pre & post & -> & Hpre & Hpost). apply re_search_spec.
  exists pre, (w ++ post). split; [reflexivity|].
  unfold match_here. apply existsb_exists. exists w. split; [exact Hin|].
  rewrite (match_literal_app _ _ (spells_itself w)). cbn [negb orb].
  assert (Hw : exists a b w', w = a :: w' /\ is_word a = true
                              /\ char_before (last_char pre) w = Some b
                              /\ is_word b = true).
  { simpl in Hin.
    repeat (destruct Hin as [<-|Hin];
            [eexists; eexists; eexists; repeat split; reflexivity|]).
    destruct Hin. }
  destruct Hw as (a & b & w' & -> & Ha & -> & Hb).
  unfold word_boundary. simpl. rewrite Ha, Hb.
  destruct (last_char pre) as [c|]; [rewrite Hpre|];
    (destruct post as [|d post]; [|rewrite Hpost]); reflexivity.
Qed.

(** Any of the three urgency triggers puts the urgency score above the
    threshold. *)
Lemma urgency_triggered (message : str) :
  consecutive_exclamation_marks message \/ urgency_keyword message ->
  (0.3 <? axis_score message urgency_patterns)%float = true.
Proof.
  intros H.
  assert (Hc : (1 <= count_matches message urgency_patterns)%nat).
  { destruct H as [H|[(w & Hin & H)|(w & Hin & H)]].
    - eapply count_matches_pos; [|apply exclamations_found, H].
      simpl; auto.
    - eapply count_matches_pos; [|apply (keyword_found_as_word Hin H)].
      simpl; auto.
    - eapply count_matches_pos; [|apply (keyword_found_ignoring_case _ Hin H)].
      simpl; auto. }
  apply ratio3_positive. split; [exact Hc|].
  apply (count_matches_le message urgency_patterns).
Qed.

End Keywords.

(* ===================================================================== *)
(** ** Properties of the tone detector *)
(* ===================================================================== *)

Section DetectorProperties.
Context {UD : UnicodeData}.

(** The decision of lines 75-92 obeys the ordered rules. *)
Lemma decision_obeys_rules (message : str) (context : option (dict pyval))
  (tone : str) (c : float) :
  decision (axis_score message urgency_patterns)
           (axis_score message complaint_patterns)
           (axis_score message formal_patterns)
           (axis_score message positive_patterns)
           (is_critical context) = (tone, c) ->
  tone_rule (axis_score message urgency_patterns)
            (axis_score message complaint_patterns)
            (axis_score message formal_patterns)
            (axis_score message positive_patterns)
            (effective_priority context) tone c.
Proof.
  destruct (is_critical context) eqn:Ec.
  { unfold decision. rewrite orb_true_r. intros [= <- <-].
    apply rule_direct. right. now apply is_critical_spec. }
  assert (Hn : effective_priority context <> str_of "critical").
  { intros E. apply is_critical_spec in E. congruence. }
  unfold decision. rewrite orb_false_r.
  destruct (0.3 <? axis_score message urgency_patterns)%float eqn:Eu.
  { intros [= <- <-]. apply rule_direct. now left. }
  destruct (0.3 <? axis_score message complaint_patterns)%float eqn:Eco.
  { intros [= <- <-]. now apply rule_empathetic. }
  destruct (0.3 <? axis_score message formal_patterns)%float eqn:Ef.
  { intros [= <- <-]. now apply rule_formal. }
  destruct (0.3 <? axis_score message positive_patterns)%float eqn:Ep.
  { intros [= <- <-]. now apply rule_friendly. }
  destruct (urgency_cases message) as [Hu|Hu]; [|congruence].
  destruct (formality_cases message) as [Hf|Hf]; [|congruence].
  destruct (complaint_cases message) as [Hc|[Hc|Hc]]; [| |congruence];
  (destruct (positivity_cases message) as [Hp|[Hp|Hp]]; [| |congruence]);
  intros [= <- <-]; revert Eu Eco Ef Ep; rewrite Hu, Hf, Hc, Hp; intros Eu Eco Ef Ep;
  first [ now apply rule_professional_default
        | apply rule_professional_mean; auto;
          intros (_ & E1 & _ & E2);
          first [ apply (f_equal (fun x => (x =? 0)%float)) in E1; discriminate E1
                | apply (f_equal (fun x => (x =? 0)%float)) in E2; discriminate E2 ] ].
Qed.

(** C2. For every message and optional context, [detect_tone] applies the
    ordered first-match rules: urgency above 0.3 or a priority that reads
    "critical" in lower case gives "direct" with the urgency score as
    confidence; else complaint above 0.3 gives "empathetic"; else formality
    above 0.3 gives "formal"; else positivity above 0.3 gives "friendly";
    else "professional", with the mean of the strictly positive scores as
    confidence, or 0.5 when all four scores are zero. *)
Theorem detect_tone_ordered_rules (message : str)
  (context : option (dict pyval)) (st : state) :
  priority_is_text context ->
  exists tone md records,
    returns (detect_tone message context) st (tone, md) records
    /\ detected_tone md = tone
    /\ tone_rule (axis_score message urgency_patterns)
                 (axis_score message complaint_patterns)
                 (axis_score message formal_patterns)
                 (axis_score message positive_patterns)
                 (effective_priority context) tone (confidence md).
Proof.
  intros Htext.
  pose proof (@detect_tone_run _ message context st (priority_is_text_lowers Htext)) as Hrun.
  unfold detection in Hrun.
  destruct (decision _ _ _ _ _) as [tone c] eqn:Ed.
  exists tone. eexists. eexists. split; [exact Hrun|]. split; [reflexivity|].
  exact (decision_obeys_rules message context Ed).
Qed.

(** C3. For each of the four axes the score of a message is the number of
    patterns of the axis's list that match somewhere in the message, divided
    by the number of patterns in the list and capped at 1.0; a pattern
    matches somewhere when it matches from some position of the message;
    the four scores are computed independently and can be non-zero
    together. *)
Theorem analyze_message_scores :
  (forall (message : str) (st : state),
     _analyze_message message st
     = (Ok [ (str_of "urgency",
              capped_ratio (count_matches message urgency_patterns)
                           (length urgency_patterns));
             (str_of "complaint",
              capped_ratio (count_matches message complaint_patterns)
                           (length complaint_patterns));
             (str_of "formality",
              capped_ratio (count_matches message formal_patterns)
                           (length formal_patterns));
             (str_of "positivity",
              capped_ratio (count_matches message positive_patterns)
                           (length positive_patterns)) ], st))
  /\ (forall (p : pattern) (message : str),
        re_search p message = true
        <-> exists pre post,
              message = pre ++ post /\ match_here p (last_char pre) post = true)
  /\ (exists message,
        Forall (fun s => (0 <? s)%float = true) (dict_values (score_map message))).
Proof.
  split; [|split].
  - intros message st. apply analyze_message_run.
  - apply re_search_spec.
  - exists (str_of "URGENT issue regarding thanks").
    repeat constructor.
Qed.

(** The shape of every detection: a label of the enumeration, a
    confidence in [0, 1], the four axis keys. *)
Lemma detection_shape (message : str) (context : option (dict pyval)) :
  let '(tone, md) := detection message context in
  In tone tone_labels
  /\ detected_tone md = tone
  /\ ((0 <=? confidence md) && (confidence md <=? 1))%float = true
  /\ dict_keys (factors md) = axes.
Proof.
  unfold detection.
  destruct (decision _ _ _ _ _) as [t c] eqn:Ed.
  cbn [detected_tone confidence factors].
  assert (Hshape : In t tone_labels /\ ((0 <=? c) && (c <=? 1))%float = true).
  { pose proof (axis_scores_unit message) as Hunit.
    inversion Hunit as [|u l1 Hu H1]; subst.
    inversion H1 as [|co l2 Hc H2]; subst.
    inversion H2 as [|f l3 Hf H3]; subst.
    inversion H3 as [|p l4 Hp _]; subst.
    pose proof (decision_obeys_rules message context Ed) as Hrule.
    destruct (str_eqb t (str_of "professional")) eqn:Et.
    - apply str_eqb_eq in Et. subst t.
      apply decision_professional in Ed as (_ & _ & _ & _ & _ & [->| ->] & _);
        split; first [reflexivity | cbn; auto 10].
    - inversion Hrule; subst; try (split; [cbn; auto 10 | assumption]);
        rewrite str_eqb_refl in Et; discriminate. }
  destruct Hshape as [Hin Hc]. auto.
Qed.

(** C5. Whatever [detect_tone] returns, the tone is one of the five labels
    of the enumeration, the confidence lies in [0, 1], and the factors map
    has exactly the four axis keys urgency, complaint, formality and
    positivity. *)
Theorem detect_tone_result_shape (message : str)
  (context : option (dict pyval)) (st st' : state)
  (tone : str) (md : ToneDetection) :
  detect_tone message context st = (Ok (tone, md), st') ->
  In tone tone_labels
  /\ detected_tone md = tone
  /\ ((0 <=? confidence md) && (confidence md <=? 1))%float = true
  /\ dict_keys (factors md) = axes.
Proof.
  intros H. apply detect_tone_inv in H.
  pose proof (detection_shape message context) as Hs.
  rewrite <- H in Hs. exact Hs.
Qed.

(** C4, as amended. For every message that contains two or more
    exclamation marks in a row, or an urgency keyword, [detect_tone] returns
    "direct" (its confidence is the urgency score), whatever complaint,
    formality or positivity triggers the message also has. *)
Theorem urgency_gives_direct (message : str)
  (context : option (dict pyval)) (st : state) :
  priority_is_text context ->
  consecutive_exclamation_marks message \/ urgency_keyword message ->
  exists md records,
    returns (detect_tone message context) st (str_of "direct", md) records
    /\ confidence md = axis_score message urgency_patterns.
Proof.
  intros Htext Htrig.
  pose proof (@detect_tone_run _ message context st
                (priority_is_text_lowers Htext)) as Hrun.
  unfold detection, decision in Hrun.
  rewrite (urgency_triggered Htrig) in Hrun. cbn [orb] in Hrun.
  eexists. eexists. split; [exact Hrun | reflexivity].
Qed.

(** C10. Whenever [detect_tone] returns "professional", the confidence is
    exactly 0.25 or exactly 0.5: the urgency and formality scores are 0,
    the complaint and positivity scores are 0 or 1/4, and the confidence is
    0.5 only when all four scores are 0. *)
Theorem professional_confidence (message : str)
  (context : option (dict pyval)) (st st' : state) (md : ToneDetection) :
  detect_tone message context st = (Ok (str_of "professional", md), st') ->
  (confidence md = 0.25%float \/ confidence md = 0.5%float)
  /\ dict_get (factors md) (str_of "urgency") = Some 0%float
  /\ dict_get (factors md) (str_of "formality") = Some 0%float
  /\ (dict_get (factors md) (str_of "complaint") = Some 0%float
      \/ dict_get (factors md) (str_of "complaint") = Some 0.25%float)
  /\ (dict_get (factors md) (str_of "positivity") = Some 0%float
      \/ dict_get (factors md) (str_of "positivity") = Some 0.25%float)
  /\ (confidence md = 0.5%float ->
      Forall (fun s => s = 0%float) (dict_values (factors md))).
Proof.
  intros H. apply detect_tone_inv in H. unfold detection in H.
  destruct (decision _ _ _ _ _) as [t c] eqn:Ed.
  injection H as <- ->. cbn [confidence factors].
  apply decision_professional in Ed as (_ & Hu & Hf & Hc & Hp & Hconf & Hhalf).
  change (dict_get (score_map message) (str_of "urgency"))
    with (Some (axis_score message urgency_patterns)).
  change (dict_get (score_map message) (str_of "formality"))
    with (Some (axis_score message formal_patterns)).
  change (dict_get (score_map message) (str_of "complaint"))
    with (Some (axis_score message complaint_patterns)).
  change (dict_get (score_map message) (str_of "positivity"))
    with (Some (axis_score message positive_patterns)).
  repeat split; try congruence.
  - destruct Hc as [-> | ->]; auto.
  - destruct Hp as [-> | ->]; auto.
  - intros E. destruct (Hhalf E) as [E1 E2].
    repeat constructor; assumption.
Qed.

End DetectorProperties.

(** *** Closed instances *)

(** C4 as stated fails: the message has two exclamation marks, carries no
    priority, and is classified "professional", not "direct". *)
Lemma separate_marks_not_direct :
  (2 <= exclamation_marks two_separate_marks)%nat
  /\ (forall (UD : UnicodeData) (st : state), exists records,
        returns (detect_tone two_separate_marks None) st
          (str_of "professional",
           {| detected_tone := str_of "professional";
              confidence := 0.5%float;
              factors := combine axes [0; 0; 0; 0]%float |})
          records)
  /\ str_of "professional" <> str_of "direct".
Proof.
  split; [vm_compute; lia|]. split; [|discriminate].
  intros UD st. eexists.
  apply (@detect_tone_run UD two_separate_marks None st). discriminate.
Qed.

(** The scenario of the specification: urgency wins over the complaint
    words of the same message. *)
Lemma urgency_gives_direct_witness :
  priority_is_text None
  /\ consecutive_exclamation_marks locked_account
  /\ exists md records,
       returns (detect_tone (UD := ascii_only) locked_account None)
               initial_state (str_of "direct", md) records
       /\ confidence md = axis_score (UD := ascii_only) locked_account urgency_patterns.
Proof.
  assert (Ht : priority_is_text None) by (intros n; discriminate).
  assert (Hm : consecutive_exclamation_marks locked_account)
    by (exists (str_of "URGENT"),
               (str_of " My account is locked, this is unacceptable!!!");
        reflexivity).
  split; [exact Ht|]. split; [exact Hm|].
  exact (@urgency_gives_direct ascii_only locked_account None initial_state
           Ht (or_introl Hm)).
Defined.

(** The rules on a message without triggers under a critical priority. *)
Lemma detect_tone_ordered_rules_witness :
  priority_is_text critical_context
  /\ exists tone md records,
       returns (detect_tone (UD := ascii_only) (str_of "hello") critical_context)
               initial_state (tone, md) records
       /\ detected_tone md = tone
       /\ tone_rule (axis_score (UD := ascii_only) (str_of "hello") urgency_patterns)
                    (axis_score (UD := ascii_only) (str_of "hello") complaint_patterns)
                    (axis_score (UD := ascii_only) (str_of "hello") formal_patterns)
                    (axis_score (UD := ascii_only) (str_of "hello") positive_patterns)
                    (effective_priority (UD := ascii_only) critical_context)
                    tone (confidence md).
Proof.
  assert (Ht : priority_is_text critical_context) by (intros n; discriminate).
  split; [exact Ht|].
  exact (@detect_tone_ordered_rules ascii_only (str_of "hello") critical_context
           initial_state Ht).
Defined.

(** The critical priority alone gives "direct" with confidence 0. *)
Example critical_priority_zero_confidence :
  exists md st',
    detect_tone (UD := ascii_only) (str_of "hello") critical_context initial_state
      = (Ok (str_of "direct", md), st')
    /\ confidence md = 0%float.
Proof. eexists. eexists. split; vm_compute; reflexivity. Qed.

(** A single complaint word: "professional" with confidence 0.25. *)
Lemma professional_confidence_witness :
  mild_complaint_result
  = (Ok (str_of "professional",
         {| detected_tone := str_of "professional";
            confidence := 0.25%float;
            factors := combine axes [0; 0.25; 0; 0]%float |}),
     snd mild_complaint_result)
  /\ (0.25 = 0.25 \/ 0.25 = 0.5)%float.
Proof.
  assert (H : mild_complaint_result
              = (Ok (str_of "professional",
                     {| detected_tone := str_of "professional";
                        confidence := 0.25%float;
                        factors := combine axes [0; 0.25; 0; 0]%float |}),
                 snd mild_complaint_result))
    by (vm_compute; reflexivity).
  split; [exact H|].
  exact (proj1 (@professional_confidence ascii_only mild_complaint None
                  initial_state _ _ H)).
Defined.

(** The shape of the result on the same message. *)
Lemma detect_tone_result_shape_witness :
  mild_complaint_result
  = (Ok (str_of "professional",
         {| detected_tone := str_of "professional";
            confidence := 0.25%float;
            factors := combine axes [0; 0.25; 0; 0]%float |}),
     snd mild_complaint_result)
  /\ In (str_of "professional") tone_labels
  /\ ((0 <=? 0.25) && (0.25 <=? 1))%float = true
  /\ dict_keys (combine axes [0; 0.25; 0; 0]%float) = axes.
Proof.
  assert (H : mild_complaint_result
              = (Ok (str_of "professional",
                     {| detected_tone := str_of "professional";
                        confidence := 0.25%float;
                        factors := combine axes [0; 0.25; 0; 0]%float |}),
                 snd mild_complaint_result))
    by (vm_compute; reflexivity).
  split; [exact H|].
  destruct (@detect_tone_result_shape ascii_only mild_complaint None
              initial_state _ _ _ H) as (H1 & _ & H3 & H4).
  auto.
Defined.

(* ===================================================================== *)
(** ** Facts about [find], [in] and [split] *)
(* ===================================================================== *)

Lemma startswith_app (p s : str) : startswith p (p ++ s) = true.
Proof.
  induction p as [|x p IH]; simpl; [reflexivity|].
  now rewrite N.eqb_refl.
Qed.

Lemma startswith_inv (p s : str) :
  startswith p s = true -> exists t, s = p ++ t.
Proof.
  revert s. induction p as [|x p IH]; intros s H.
  - now exists s.
  - destruct s as [|y s]; [discriminate|]. simpl in H.
    apply andb_prop in H as [Hx H]. apply N.eqb_eq in Hx. subst y.
    destruct (IH s H) as [t ->]. now exists t.
Qed.

(** [find] returns the position of an occurrence. *)
Lemma str_find_some (sub s : str) (i : nat) :
  find sub s = Some i ->
  exists pre post, s = pre ++ sub ++ post /\ length pre = i.
Proof.
  revert i. induction s as [|c s IH]; intros i; simpl.
  - destruct (startswith sub []) eqn:E; [|discriminate].
    intros [= <-]. apply startswith_inv in E as [t E]. now exists [], t.
  - destruct (startswith sub (c :: s)) eqn:E.
    + intros [= <-]. apply startswith_inv in E as [t E]. now exists [], t.
    + destruct (find sub s) as [j|]; [|discriminate].
      intros [= <-]. destruct (IH j eq_refl) as (pre & post & -> & <-).
      now exists (c :: pre), post.
Qed.

(** [find] returns the first occurrence. *)
Lemma find_occurrence (sub pre post : str) :
  exists i, find sub (pre ++ sub ++ post) = Some i /\ (i <= length pre)%nat.
Proof.
  induction pre as [|c pre (i & IH & Hle)].
  - exists 0%nat. simpl app.
    destruct (sub ++ post) eqn:E; simpl; rewrite <- E, startswith_app; auto.
  - simpl app. simpl find.
    destruct (startswith sub (c :: pre ++ sub ++ post)).
    + exists 0%nat. split; [reflexivity | lia].
    + exists (S i). rewrite IH. split; [reflexivity | simpl; lia].
Qed.

Lemma contains_occurs (sub s : str) : contains sub s = true <-> occurs sub s.
Proof.
  unfold contains, occurs. split.
  - destruct (find sub s) as [i|] eqn:E; [|discriminate].
    intros _. apply str_find_some in E as (pre & post & -> & _). eauto.
  - intros (pre & post & ->).
    destruct (find_occurrence sub pre post) as (i & -> & _). reflexivity.
Qed.

Lemma str_find_none (sub s : str) : find sub s = None <-> ~ occurs sub s.
Proof.
  rewrite <- contains_occurs. unfold contains.
  destruct (find sub s); split; congruence.
Qed.

(** The defining equation of [split]. *)
Lemma split_nonempty_eq (c : codepoint) (sep' s : str) :
  split_nonempty c sep' s
  = match find (c :: sep') s with
    | None => [s]
    | Some i => firstn i s :: split_nonempty c sep' (skipn (i + length (c :: sep')) s)
    end.
Proof.
  funelim (split_nonempty c sep' s).
  - rewrite e. reflexivity.
  - rewrite e. reflexivity.
Qed.

Lemma split_nonempty_not_nil (c : codepoint) (sep' s : str) :
  split_nonempty c sep' s <> [].
Proof.
  rewrite split_nonempty_eq. destruct (find (c :: sep') s); discriminate.
Qed.

(** Two occurrences of a separator whose first character does not come
    back in it cannot overlap. *)
Lemma occurrences_apart (c : codepoint) (sep' a b pre rest : str) :
  ~ In c sep' ->
  a ++ (c :: sep') ++ b = pre ++ (c :: sep') ++ rest ->
  (length a < length pre)%nat ->
  (length a + length (c :: sep') <= length pre)%nat.
Proof.
  intros Hc E Hlt.
  destruct (Nat.le_gt_cases (length a + length (c :: sep')) (length pre))
    as [Hle|Hgt]; [exact Hle|].
  exfalso. apply Hc.
  assert (Hn : nth_error (pre ++ (c :: sep') ++ rest) (length pre) = Some c).
  { rewrite nth_error_app2 by lia. now rewrite Nat.sub_diag. }
  rewrite <- E in Hn. simpl in Hgt.
  rewrite nth_error_app2 in Hn by lia.
  destruct (length pre - length a)%nat as [|d] eqn:Ed; [lia|].
  simpl in Hn. rewrite nth_error_app1 in Hn by lia.
  now apply nth_error_In in Hn.
Qed.

Lemma last_cons_nonempty (A : Type) (l : list A) (x d : A) :
  l <> [] -> last (x :: l) d = last l d.
Proof. destruct l; [congruence | reflexivity]. Qed.

Lemma skipn_occurrence (sep pre rest : str) :
  skipn (length pre + length sep) (pre ++ sep ++ rest) = rest.
Proof.
  rewrite app_assoc, <- length_app, skipn_app, skipn_all, Nat.sub_diag.
  reflexivity.
Qed.

(** After the last separator: the last piece of the split. *)
Lemma split_last_piece (c : codepoint) (sep' : str) :
  ~ In c sep' ->
  forall (n : nat) (pre rest : str),
    (length pre <= n)%nat ->
    ~ occurs (c :: sep') rest ->
    last_item (split_nonempty c sep' (pre ++ (c :: sep') ++ rest)) = rest.
Proof.
  intros Hc. unfold last_item.
  induction n as [|n IH]; intros pre rest Hlen Hrest.
  all: rewrite split_nonempty_eq.
  all: destruct (find_occurrence (c :: sep') pre rest) as (i & Hi & Hle).
  all: rewrite Hi.
  all: rewrite last_cons_nonempty by apply split_nonempty_not_nil.
  all: destruct (str_find_some _ _ Hi) as (a & b & E & Ha).
  all: destruct (Nat.eq_dec i (length pre)) as [->|Hne]; [|try lia].
  1, 2: rewrite skipn_occurrence, split_nonempty_eq;
        apply str_find_none in Hrest; rewrite Hrest; reflexivity.
  assert (Hlt : (length a < length pre)%nat) by lia.
  symmetry in E.
  pose proof (@occurrences_apart c sep' a b pre rest Hc E Hlt) as Hap.
  rewrite Ha in Hap.
  rewrite skipn_app.
  replace (i + length (c :: sep') - length pre)%nat with 0%nat by lia.
  rewrite skipn_O.
  apply IH; [|exact Hrest].
  rewrite length_skipn. simpl in *. lia.
Qed.

(* ===================================================================== *)
(** ** Facts about [strip] *)
(* ===================================================================== *)

Lemma lstrip_spec (s : str) :
  exists ws, s = ws ++ lstrip s /\ all_space ws /\ no_space_at_head (lstrip s).
Proof.
  induction s as [|c s (ws & E & Hws & Hh)].
  - exists []. repeat split; constructor.
  - simpl. destruct (isspace c) eqn:Ec.
    + exists (c :: ws). repeat split; [simpl; congruence | now constructor | exact Hh].
    + exists []. repeat split; [constructor | exact Ec].
Qed.

Lemma rstrip_spec (s : str) :
  exists ws, s = rstrip s ++ ws /\ all_space ws /\ no_space_at_head (rev (rstrip s)).
Proof.
  unfold rstrip. destruct (lstrip_spec (rev s)) as (ws & E & Hws & Hh).
  exists (rev ws). repeat split.
  - rewrite <- rev_app_distr, <- E. symmetry. apply rev_involutive.
  - apply Forall_rev, Hws.
  - now rewrite rev_involutive.
Qed.

(** [strip] removes white space, and only white space, from both ends. *)
Lemma strip_spec (s : str) :
  exists ws1 ws2,
    s = ws1 ++ strip s ++ ws2
    /\ all_space ws1 /\ all_space ws2
    /\ no_space_at_head (strip s) /\ no_space_at_head (rev (strip s)).
Proof.
  unfold strip.
  destruct (lstrip_spec s) as (ws1 & E1 & H1 & Hh1).
  destruct (rstrip_spec (lstrip s)) as (ws2 & E2 & H2 & Hh2).
  exists ws1, ws2. repeat split; auto.
  - now rewrite <- E2.
  - destruct (rstrip (lstrip s)) as [|c r] eqn:Er; [exact I|].
    rewrite E2 in Hh1. exact Hh1.
Qed.

(* ===================================================================== *)
(** ** Post-processing of the generated text *)
(* ===================================================================== *)

Lemma think_close_first_char : ~ In (chr "<") (str_of "/think>").
Proof.
  intros H. simpl in H.
  repeat (destruct H as [H|H]; [discriminate H|]). exact H.
Qed.

Lemma after_last_close_spec (pre rest : str) :
  ~ occurs think_close rest ->
  after_last_close (pre ++ think_close ++ rest) = rest.
Proof.
  intros H. unfold after_last_close.
  apply (split_last_piece think_close_first_char (n := length pre)); auto.
Qed.

(** C9, as amended. The generated text is trimmed of its leading and
    trailing white space, and of nothing else; when the trimmed text has no
    start marker it is the message; when it has a start marker and an end
    marker, everything up to and including the last end marker is dropped
    and the rest, trimmed, is the message. *)
Theorem clean_response_spec (text : str) :
  (exists ws1 ws2,
     text = ws1 ++ strip text ++ ws2
     /\ all_space ws1 /\ all_space ws2
     /\ no_space_at_head (strip text) /\ no_space_at_head (rev (strip text)))
  /\ (~ occurs think_open (strip text) -> clean_response text = strip text)
  /\ (forall pre rest,
        occurs think_open (strip text) ->
        strip text = pre ++ think_close ++ rest ->
        ~ occurs think_close rest ->
        clean_response text = strip rest).
Proof.
  split; [apply strip_spec|].
  unfold clean_response. split.
  - intros H. destruct (contains think_open (strip text)) eqn:E; [|reflexivity].
    apply contains_occurs in E. contradiction.
  - intros pre rest Hopen E Hrest.
    apply contains_occurs in Hopen. rewrite Hopen, E.
    now rewrite after_last_close_spec.
Qed.

(** C9 as stated fails: the text holds the thinking segment
    [<think>a</think>], whose end marker is followed by [b</think>c], yet
    the message is [c]. *)
Lemma stray_close_loses_text :
  strip stray_close
    = think_open ++ str_of "a" ++ think_close ++ str_of "b</think>c"
  /\ ~ occurs think_close (str_of "a")
  /\ clean_response stray_close = str_of "c"
  /\ str_of "c" <> strip (str_of "b</think>c").
Proof.
  split; [reflexivity|]. split; [now apply str_find_none|].
  split; [vm_compute; reflexivity | discriminate].
Qed.

(** A reply with one thinking segment loses it and its surrounding white
    space. *)
Lemma clean_response_spec_witness :
  occurs think_open (strip reasoned_reply)
  /\ strip reasoned_reply
       = str_of "<think>plan" ++ think_close ++ str_of " Dear Ann, done."
  /\ ~ occurs think_close (str_of " Dear Ann, done.")
  /\ clean_response reasoned_reply = str_of "Dear Ann, done.".
Proof.
  assert (H1 : occurs think_open (strip reasoned_reply))
    by (now apply contains_occurs).
  assert (H2 : strip reasoned_reply
               = str_of "<think>plan" ++ think_close ++ str_of " Dear Ann, done.")
    by reflexivity.
  assert (H3 : ~ occurs think_close (str_of " Dear Ann, done."))
    by (now apply str_find_none).
  split; [exact H1|]. split; [exact H2|]. split; [exact H3|].
  exact (proj2 (proj2 (clean_response_spec reasoned_reply)) _ _ H1 H2 H3).
Defined.

(* ===================================================================== *)
(** ** Facts about the response orchestrator *)
(* ===================================================================== *)

Lemma build_prompt_run (request : EmailRequest) (tone_guidelines : str) (st : state) :
  build_prompt request tone_guidelines st
  = (Ok (prompt_text request tone_guidelines), st).
Proof. reflexivity. Qed.

Lemma template_length_value : template_length = 1573%Z.
Proof. vm_compute. reflexivity. Qed.

Lemma len_app (A : Type) (a b : list A) : len (a ++ b) = (len a + len b)%Z.
Proof. unfold len. rewrite length_app. lia. Qed.

Lemma len_nonneg (A : Type) (a : list A) : (0 <= len a)%Z.
Proof. unfold len. lia. Qed.

(** The length of the prompt: the template and its four fields. *)
Lemma prompt_text_length (request : EmailRequest) (tone_guidelines : str) :
  len (prompt_text request tone_guidelines)
  = (template_length
     + len (_format_context (context request))
     + len tone_guidelines
     + len (customer_message request)
     + len (str_of_int (effective_max_length request)))%Z.
Proof.
  unfold prompt_text. rewrite !len_app.
  replace template_length
    with (len (template_literal 0) + len (template_literal 1)
          + len (template_literal 2) + len (template_literal 3)
          + len (template_literal 4))%Z by (vm_compute; reflexivity).
  lia.
Qed.

Lemma ToneType_lookup_none (tone : str) :
  ToneType_lookup tone = None <-> ~ In tone tone_labels.
Proof.
  unfold ToneType_lookup, tone_labels. split.
  - intros H Hin. apply in_map_iff in Hin as (t & <- & Hin).
    apply (List.find_none _ _ H) in Hin. now rewrite str_eqb_refl in Hin.
  - intros H. destruct (List.find _ ToneType_members) as [t|] eqn:E; [|reflexivity].
    apply List.find_some in E as [Hin E]. apply str_eqb_eq in E.
    destruct H. rewrite <- E. now apply in_map.
Qed.

Section OrchestratorFacts.
Context {UD : UnicodeData}.
Variable env : Env.

Lemma validate_tone_member (t : ToneType) (st : state) :
  validate_tone (ToneType_value t) st
  = (Ok (t, ToneType_value t, guideline t), st).
Proof. destruct t; reflexivity. Qed.

Lemma validate_tone_fallback (tone : str) (st : state) :
  ~ In tone tone_labels ->
  validate_tone tone st
  = (Ok (PROFESSIONAL, ToneType_value PROFESSIONAL, guideline PROFESSIONAL),
     add_log st [(WARNING, INVALID_TONE tone)]).
Proof.
  intros H. apply ToneType_lookup_none in H.
  unfold validate_tone, try_except, bind. rewrite H. reflexivity.
Qed.

(** From a recognised tone on, the orchestrator fails only if the
    generation capability does. *)
Lemma respond_member_run (request : EmailRequest) (t : ToneType)
  (md : option ToneDetection) (st : state) :
  valid_detection md ->
  respond_with_tone env request (ToneType_value t) md st
  = let prompt := prompt_text request (guideline t) in
    let st' := add_log st [(DEBUG, GENERATING (ToneType_value t))] in
    match llm env prompt with
    | Ok text => (Ok (response_for env (ToneType_value t) prompt text md), st')
    | Raise e => (Raise e, st')
    end.
Proof.
  intros Hmd. unfold respond_with_tone, bind.
  rewrite validate_tone_member, build_prompt_run. cbn [logger].
  fold (add_log st [(DEBUG, GENERATING (ToneType_value t))]).
  cbv zeta. destruct (llm env (prompt_text request (guideline t))); [|reflexivity].
  destruct md as [d|]; [|reflexivity].
  unfold ToneDetectionMetadata_validate. simpl in Hmd. rewrite Hmd. reflexivity.
Qed.

Lemma resolve_tone_explicit (request : EmailRequest) (t : ToneType) (st : state) :
  tone request = Some t ->
  resolve_tone request st = (Ok (ToneType_value t, None), st).
Proof. intros H. unfold resolve_tone. rewrite H. destruct t; reflexivity. Qed.

Lemma detector_context_text (request : EmailRequest) :
  priority_is_text (detector_context request).
Proof.
  intros n. unfold detector_context, priority_field.
  destruct (context request) as [c|]; [|discriminate].
  cbn. destruct (priority c); discriminate.
Qed.

Lemma resolve_tone_detected (request : EmailRequest) (st : state) :
  tone request = None ->
  let d := detection (customer_message request) (detector_context request) in
  resolve_tone request st
  = (Ok (fst d, Some (snd d)),
     add_log st [ (DEBUG, TONE_SCORES (score_map (customer_message request)));
                  (INFO, DETECTED_TONE (fst d) (confidence (snd d)));
                  (INFO, AUTO_DETECTED (fst d)) ]).
Proof.
  intros H d. unfold resolve_tone. rewrite H. unfold bind.
  pose proof (@detect_tone_run _ (customer_message request)
                (detector_context request) st
                (priority_is_text_lowers (detector_context_text request))) as Hrun.
  unfold returns, detector_context in Hrun. rewrite Hrun.
  fold (detector_context request). fold d.
  destruct d as [t md]. cbn. unfold add_log. cbn. rewrite <- app_assoc. reflexivity.
Qed.

(** The detected tone is the value of a member, and its metadata is valid. *)
Lemma detection_member (message : str) (context : option (dict pyval)) :
  exists t, fst (detection message context) = ToneType_value t
            /\ valid_detection (Some (snd (detection message context))).
Proof.
  pose proof (detection_shape message context) as Hs.
  destruct (detection message context) as [tone md].
  destruct Hs as (Hin & _ & Hc & _).
  apply in_map_iff in Hin as (t & <- & _).
  exists t. split; [reflexivity | exact Hc].
Qed.

End OrchestratorFacts.

(* ===================================================================== *)
(** ** Properties of the response orchestrator *)
(* ===================================================================== *)

Section OrchestratorProperties.
Context {UD : UnicodeData}.
Variable env : Env.

(** The whole call with an explicit tone. *)
Lemma generate_explicit_run (request : EmailRequest) (t : ToneType) (st : state) :
  tone request = Some t ->
  generate_email_response env request st
  = let prompt := prompt_text request (guideline t) in
    let st' := add_log st [(DEBUG, GENERATING (ToneType_value t))] in
    match llm env prompt with
    | Ok text => (Ok (response_for env (ToneType_value t) prompt text None), st')
    | Raise e => (Raise e, add_log st' [(ERROR, ERROR_GENERATING e)])
    end.
Proof.
  intros H. unfold generate_email_response, try_except, bind.
  rewrite (@resolve_tone_explicit _ request t st H).
  rewrite (@respond_member_run env request t None st I). cbv zeta.
  destruct (llm env (prompt_text request (guideline t))); reflexivity.
Qed.

(** The whole call without a tone: the sibling path of the facade. *)
Lemma generate_detected_run (request : EmailRequest) (st : state) :
  tone request = None ->
  exists t,
    let d := detection (customer_message request) (detector_context request) in
    let prompt := prompt_text request (guideline t) in
    let st' :=
      add_log st [ (DEBUG, TONE_SCORES (score_map (customer_message request)));
                   (INFO, DETECTED_TONE (fst d) (confidence (snd d)));
                   (INFO, AUTO_DETECTED (fst d));
                   (DEBUG, GENERATING (ToneType_value t)) ] in
    fst d = ToneType_value t
    /\ generate_email_response env request st
       = match llm env prompt with
         | Ok text =>
             (Ok (response_for env (ToneType_value t) prompt text (Some (snd d))), st')
         | Raise e => (Raise e, add_log st' [(ERROR, ERROR_GENERATING e)])
         end.
Proof.
  intros H.
  destruct (detection_member (customer_message request) (detector_context request))
    as (t & Ht & Hv).
  exists t. cbv zeta. split; [exact Ht|].
  unfold generate_email_response, try_except, bind.
  rewrite (@resolve_tone_detected _ request st H). cbv zeta. rewrite Ht.
  rewrite (@respond_member_run env request t _ _ Hv). cbv zeta.
  destruct (llm env (prompt_text request (guideline t)));
    unfold add_log; cbn; rewrite <- ?app_assoc; reflexivity.
Qed.

(** C6. Whenever a request supplies an explicit tone, the call returns as
    soon as the generation capability does, and the metadata of every
    response has that tone as [tone_used] and no [tone_detection], whatever
    the message says. *)
Theorem explicit_tone_overrides (request : EmailRequest) (t : ToneType) (st : state) :
  tone request = Some t ->
  (forall text,
     llm env (prompt_text request (guideline t)) = Ok text ->
     exists resp st', generate_email_response env request st = (Ok resp, st'))
  /\ (forall resp st',
        generate_email_response env request st = (Ok resp, st') ->
        tone_used (metadata resp) = ToneType_value t
        /\ tone_detection (metadata resp) = None).
Proof.
  intros H. rewrite (@generate_explicit_run request t st H). cbv zeta. split.
  - intros text ->. eauto.
  - intros resp st'.
    destruct (llm env (prompt_text request (guideline t))); [|discriminate].
    intros [= <- _]. split; reflexivity.
Qed.

(** C7. In every response, [context_length] is the number of characters of
    the assembled prompt: the template, the formatted context, the tone
    guideline, the customer message and the length limit; it exceeds the
    length of the customer message. *)
Theorem context_length_is_prompt_length (request : EmailRequest)
  (st st' : state) (resp : EmailResponse) :
  generate_email_response env request st = (Ok resp, st') ->
  exists t,
    tone_used (metadata resp) = ToneType_value t
    /\ context_length (metadata resp) = len (prompt_text request (guideline t))
    /\ context_length (metadata resp)
       = (template_length
          + len (_format_context (context request))
          + len (guideline t)
          + len (customer_message request)
          + len (str_of_int (effective_max_length request)))%Z
    /\ (len (customer_message request) < context_length (metadata resp))%Z.
Proof.
  intros H.
  assert (Hex : exists t md text,
             resp = response_for env (ToneType_value t)
                      (prompt_text request (guideline t)) text md).
  { destruct (tone request) as [t|] eqn:Et.
    - rewrite (@generate_explicit_run request t st Et) in H. cbv zeta in H.
      destruct (llm env (prompt_text request (guideline t))) as [text|];
        [|discriminate].
      injection H as <- _. eauto.
    - destruct (@generate_detected_run request st Et) as (t & _ & Hrun). cbv zeta in Hrun.
      rewrite Hrun in H.
      destruct (llm env (prompt_text request (guideline t))) as [text|];
        [|discriminate].
      injection H as <- _. eauto. }
  destruct Hex as (t & md & text & ->). exists t.
  unfold response_for. cbn [metadata tone_used context_length].
  split; [reflexivity|]. split; [reflexivity|].
  rewrite prompt_text_length. split; [reflexivity|].
  rewrite template_length_value.
  pose proof (len_nonneg (_format_context (context request))).
  pose proof (len_nonneg (guideline t)).
  pose proof (len_nonneg (str_of_int (effective_max_length request))).
  lia.
Qed.

(** Lines 160-209 on a tone that is not one of the five values: the
    validation logs its warning and the call goes on exactly as with
    "professional". *)
Lemma respond_unrecognised_run (request : EmailRequest) (tone : str)
  (md : option ToneDetection) (st : state) :
  ~ In tone tone_labels ->
  respond_with_tone env request tone md st
  = respond_with_tone env request (str_of "professional") md
      (add_log st [(WARNING, INVALID_TONE tone)]).
Proof.
  intros H. unfold respond_with_tone, bind.
  rewrite (@validate_tone_fallback tone st H).
  change (str_of "professional") with (ToneType_value PROFESSIONAL).
  rewrite validate_tone_member. reflexivity.
Qed.

(** On the request object of a validated request the orchestrator does what
    it does on the validated request. *)
Lemma unvalidated_agrees (request : EmailRequest) (st : state) :
  Unvalidated.generate_email_response env (Unvalidated.of_validated request) st
  = generate_email_response env request st.
Proof. destruct request as [m c [t|] l]; [destruct t|]; reflexivity. Qed.

(** The tone a validated request brings to the validation is one of the five
    values: the fallback is not taken on it. *)
Lemma validated_tone_is_recognised (request : EmailRequest) (st st' : state)
  (resolved : str) (md : option ToneDetection) :
  resolve_tone request st = (Ok (resolved, md), st') -> In resolved tone_labels.
Proof.
  destruct (tone request) as [t|] eqn:Et.
  - rewrite (@resolve_tone_explicit _ request t st Et). intros [= <- _ _].
    unfold tone_labels. apply in_map. destruct t; simpl; auto 10.
  - rewrite (@resolve_tone_detected _ request st Et). cbv zeta. intros [= <- _ _].
    destruct (detection_member (customer_message request)
                (detector_context request)) as (t & -> & _).
    unfold tone_labels. apply in_map. destruct t; simpl; auto 10.
Qed.

(** A tone that is a non-empty plain string stops the orchestrator at line
    147, before anything is detected, validated or generated. *)
Lemma plain_tone_run (request : Unvalidated.Request) (s : str) (st : state) :
  Unvalidated.tone request = Unvalidated.PLAIN s -> s <> [] ->
  let e := AttributeError (str_of "'str' object has no attribute 'value'") in
  Unvalidated.generate_email_response env request st
  = (Raise e, add_log st [(ERROR, ERROR_GENERATING e)]).
Proof.
  intros Ht Hs. unfold Unvalidated.generate_email_response,
    Unvalidated.resolve_tone, try_except, bind.
  rewrite Ht. destruct s as [|c s]; [contradiction|]. reflexivity.
Qed.

(** C8, as amended. When the [value] of the tone object of a request is
    not one of the five values, [generate_email_response] does not fail on
    that account: it logs the warning, puts the professional guideline in
    the prompt and reports "professional" as the tone used, and it raises
    only what the generation raises. A tone that is a non-empty plain
    string has no [value]: [generate_email_response] raises the
    [AttributeError] of line 147 and logs it as an error, without a warning
    and without a substitution. *)
Theorem unrecognised_value_falls_back (request : Unvalidated.Request)
  (st : state) :
  (forall v,
     Unvalidated.tone request = Unvalidated.HOLDER v ->
     ~ In v tone_labels ->
     let prompt := prompt_text (Unvalidated.as_validated request)
                     (guideline PROFESSIONAL) in
     let st_w := add_log st [ (WARNING, INVALID_TONE v);
                              (DEBUG, GENERATING (str_of "professional")) ] in
     Unvalidated.generate_email_response env request st
     = match llm env prompt with
       | Ok text =>
           (Ok (response_for env (str_of "professional") prompt text None), st_w)
       | Raise e => (Raise e, add_log st_w [(ERROR, ERROR_GENERATING e)])
       end)
  /\ (forall s,
        Unvalidated.tone request = Unvalidated.PLAIN s -> s <> [] ->
        let e := AttributeError (str_of "'str' object has no attribute 'value'") in
        Unvalidated.generate_email_response env request st
        = (Raise e, add_log st [(ERROR, ERROR_GENERATING e)])).
Proof.
  split.
  - intros v Ht Hv. cbv zeta.
    unfold Unvalidated.generate_email_response, Unvalidated.resolve_tone,
      try_except, bind.
    rewrite Ht. cbn [Unvalidated.tone_value ret].
    rewrite (@respond_unrecognised_run _ v None st Hv).
    change (str_of "professional") with (ToneType_value PROFESSIONAL).
    rewrite (@respond_member_run env _ PROFESSIONAL None _ I). cbv zeta.
    destruct (llm env _); unfold add_log; cbn; rewrite <- ?app_assoc;
      reflexivity.
  - intros s Ht Hs. exact (@plain_tone_run request s st Ht Hs).
Qed.

(** The detector sees the same thing whether the unset fields of the
    context are left out of the map or kept as [None]. *)
Lemma detection_ignores_unset_fields (message : str) (c : EmailContext) :
  detection message (Some (EmailContext_dict c))
  = detection message (Some (EmailContext_dict_exclude_none c)).
Proof.
  unfold detection. f_equal.
  destruct c as [[?|] [?|] [?|] [?|] [?|] [?|] [?|]]; reflexivity.
Qed.

(** What [LangChainService.generate_email_response] does when no tone is
    supplied: the detector's full result is the [tone_detection] field. *)
Lemma service_reports_detection (request : EmailRequest)
  (st st' : state) (resp : EmailResponse) :
  tone request = None ->
  generate_email_response env request st = (Ok resp, st') ->
  tone_detection (metadata resp)
  = Some (snd (detection (customer_message request) (detector_context request)))
  /\ tone_used (metadata resp)
     = fst (detection (customer_message request) (detector_context request)).
Proof.
  intros Ht H. destruct (@generate_detected_run request st Ht) as (t & Hd & Hrun).
  cbv zeta in Hrun. rewrite Hrun in H.
  destruct (llm env (prompt_text request (guideline t))); [|discriminate].
  injection H as <- _. cbn. rewrite Hd. split; reflexivity.
Qed.

(** C1 (the facade fails on it). For every request without an explicit
    tone, [AIAgent.generate_email_response] raises [AttributeError] at
    [request.tone.value], after recording the message under [last_email]
    and before the tone detector or the generation is reached: no response
    and no [tone_detection] are produced. *)
Theorem agent_raises_without_tone (message : str) (c : option EmailContext)
  (limit : option Z) (st : state) :
  AIAgent.generate_email_response env
    {| customer_message := message; context := c; tone := None;
       max_length := limit |} st
  = (Raise (AttributeError (str_of "'NoneType' object has no attribute 'value'")),
     {| log := log st ++ [(DEBUG, AGENT_REQUEST None)];
        agent_context := dict_set (agent_context st) (str_of "last_email") message |}).
Proof. reflexivity. Qed.

End OrchestratorProperties.

(** *** Closed instances *)

(** An urgent message answered in the formal tone that was asked for. *)
Lemma explicit_tone_overrides_witness :
  tone formal_request = Some FORMAL
  /\ (forall text,
        llm canned_env (prompt_text formal_request (guideline FORMAL)) = Ok text ->
        exists resp st',
          generate_email_response (UD := ascii_only) canned_env formal_request
            initial_state = (Ok resp, st'))
  /\ (forall resp st',
        generate_email_response (UD := ascii_only) canned_env formal_request
          initial_state = (Ok resp, st') ->
        tone_used (metadata resp) = ToneType_value FORMAL
        /\ tone_detection (metadata resp) = None).
Proof.
  split; [reflexivity|].
  exact (@explicit_tone_overrides ascii_only canned_env formal_request FORMAL
           initial_state eq_refl).
Defined.

(** A prompt of 1800 characters for a message of 54. *)
Lemma context_length_is_prompt_length_witness :
  auto_run = (Ok auto_response, snd auto_run)
  /\ context_length (metadata auto_response) = 1800%Z
  /\ (len (customer_message auto_request)
      < context_length (metadata auto_response))%Z.
Proof.
  assert (H : auto_run = (Ok auto_response, snd auto_run))
    by (vm_compute; reflexivity).
  split; [exact H|]. split; [vm_compute; reflexivity|].
  destruct (@context_length_is_prompt_length ascii_only canned_env auto_request
              initial_state _ _ H) as (t & _ & _ & _ & Hlt).
  exact Hlt.
Defined.

(** C8 as stated fails. The tone "angry", put on a request as a plain
    string, is not one of the five values; the generation answers the
    professional prompt; yet the orchestrator raises, and the only record it
    logs is the error: no warning, no substitution, no response. *)
Lemma plain_string_tone_raises :
  ~ In (str_of "angry") tone_labels
  /\ llm canned_env
       (prompt_text (Unvalidated.as_validated plain_angry_request)
          (guideline PROFESSIONAL)) = Ok reasoned_reply
  /\ Unvalidated.generate_email_response (UD := ascii_only) canned_env
       plain_angry_request initial_state
     = (Raise (AttributeError (str_of "'str' object has no attribute 'value'")),
        add_log initial_state
          [(ERROR, ERROR_GENERATING
                     (AttributeError
                        (str_of "'str' object has no attribute 'value'")))]).
Proof.
  split; [apply ToneType_lookup_none; reflexivity|].
  split; reflexivity.
Qed.

(** The same tone as the value of an object of another class is replaced. *)
Lemma unrecognised_value_falls_back_witness :
  ~ In (str_of "angry") tone_labels
  /\ Unvalidated.generate_email_response (UD := ascii_only) canned_env
       foreign_angry_request initial_state
     = (Ok (response_for canned_env (str_of "professional")
              (prompt_text (Unvalidated.as_validated foreign_angry_request)
                 (guideline PROFESSIONAL))
              reasoned_reply None),
        add_log initial_state
          [ (WARNING, INVALID_TONE (str_of "angry"));
            (DEBUG, GENERATING (str_of "professional")) ]).
Proof.
  assert (H : ~ In (str_of "angry") tone_labels)
    by (apply ToneType_lookup_none; reflexivity).
  split; [exact H|].
  exact (proj1 (@unrecognised_value_falls_back ascii_only canned_env
                  foreign_angry_request initial_state)
           (str_of "angry") eq_refl H).
Defined.

(** An empty string as the tone counts as no tone: the detector decides. *)
Example empty_string_tone_is_detected :
  Unvalidated.generate_email_response (UD := ascii_only) canned_env
    (Unvalidated.Build_Request locked_account None (Unvalidated.PLAIN []) None)
    initial_state
  = generate_email_response (UD := ascii_only) canned_env
      {| customer_message := locked_account; context := None; tone := None;
         max_length := None |}
      initial_state.
Proof. reflexivity. Qed.

(** Through the facade: an explicit tone goes through, a missing one does
    not. *)
Example agent_accepts_explicit_tone :
  exists resp st',
    AIAgent.generate_email_response (UD := ascii_only) canned_env formal_request
      initial_state = (Ok resp, st')
    /\ tone_used (metadata resp) = str_of "formal"
    /\ message resp = str_of "Dear Ann, done."
    /\ dict_get (agent_context st') (str_of "last_tone") = Some (str_of "formal").
Proof. eexists. eexists. split; [vm_compute; reflexivity|]. repeat split. Qed.

Example agent_rejects_auto_request :
  exists e st',
    AIAgent.generate_email_response (UD := ascii_only) canned_env auto_request
      initial_state = (Raise e, st').
Proof. eexists. eexists. vm_compute. reflexivity. Qed.

(* ===================================================================== *)
(** ** Further properties: the context block *)
(* ===================================================================== *)

Lemma fold_left_append (A : Type) (f : A -> str) (l : list A) (init : str) :
  fold_left (fun acc x => acc ++ f x) l init = init ++ concat (map f l).
Proof.
  revert init. induction l as [|x l IH]; intros init; simpl.
  - now rewrite app_nil_r.
  - rewrite IH, app_assoc. reflexivity.
Qed.

(** X1. [_format_context] answers a missing context with the fixed
    sentence, and a context with the header line followed by one line
    ["- Label: value"] per field that was given a value, in declaration
    order; a field left unset has no line. *)
Theorem format_context_lines :
  _format_context None = str_of "No additional context provided."
  /\ forall c : EmailContext,
       _format_context (Some c)
       = str_of ("Customer Information:" ++ newline)
         ++ concat (map context_line
                        (filter (fun field => is_set (snd field)) (context_fields c))).
Proof.
  split; [reflexivity|].
  intros c. unfold _format_context.
  rewrite (fold_left_append
             (fun kv => str_of "- " ++ title (replace_char (chr "_") (chr " ") (fst kv))
                        ++ str_of ": " ++ format_value (snd kv) ++ str_of newline)).
  f_equal. f_equal.
  destruct c as [[?|] [?|] [?|] [?|] [?|] [?|] [?|]]; reflexivity.
Qed.

(** A context none of whose fields is set still gets the header, not the
    sentence of a missing context. *)
Example format_context_all_unset :
  _format_context (Some {| customer_name := None; customer_history := None;
                           account_type := None; previous_interactions := None;
                           priority := None; department := None;
                           additional_notes := None |})
  = str_of ("Customer Information:" ++ newline).
Proof. reflexivity. Qed.

(* ===================================================================== *)
(** ** Further properties: the tone detector *)
(* ===================================================================== *)

(** Above the threshold: one match out of three, two out of four. *)
Lemma ratio3_threshold (k : nat) :
  (k <= 3)%nat -> ((0.3 <? capped_ratio k 3)%float = true <-> (1 <= k)%nat).
Proof.
  intros H. do 4 (destruct k as [|k]; [split; [try discriminate; try lia | try lia; try reflexivity]|]).
  lia.
Qed.

Lemma ratio4_threshold (k : nat) :
  (k <= 4)%nat -> ((0.3 <? capped_ratio k 4)%float = true <-> (2 <= k)%nat).
Proof.
  intros H. do 5 (destruct k as [|k]; [split; [try discriminate; try lia | try lia; try reflexivity]|]).
  lia.
Qed.

Section DetectorExtras.
Context {UD : UnicodeData}.

Lemma urgency_threshold (message : str) :
  (0.3 <? axis_score message urgency_patterns)%float = true
  <-> (1 <= count_matches message urgency_patterns)%nat.
Proof. apply ratio3_threshold, (count_matches_le message urgency_patterns). Qed.

Lemma formality_threshold (message : str) :
  (0.3 <? axis_score message formal_patterns)%float = true
  <-> (1 <= count_matches message formal_patterns)%nat.
Proof. apply ratio3_threshold, (count_matches_le message formal_patterns). Qed.

Lemma complaint_threshold (message : str) :
  (0.3 <? axis_score message complaint_patterns)%float = true
  <-> (2 <= count_matches message complaint_patterns)%nat.
Proof. apply ratio4_threshold, (count_matches_le message complaint_patterns). Qed.

Lemma positivity_threshold (message : str) :
  (0.3 <? axis_score message positive_patterns)%float = true
  <-> (2 <= count_matches message positive_patterns)%nat.
Proof. apply ratio4_threshold, (count_matches_le message positive_patterns). Qed.

Lemma below_threshold (b : bool) (n k : nat) :
  (b = true <-> (k <= n)%nat) -> b = false -> (n < k)%nat.
Proof. intros H E. destruct (Nat.le_gt_cases k n) as [L|L]; [|exact L]. apply H in L. congruence. Qed.

(** X2. A priority that reads "critical" in lower case makes [detect_tone]
    return "direct" for every message, with the urgency score of the
    message, whatever it is, as confidence. *)
Theorem critical_priority_gives_direct (message : str) (d : dict pyval)
  (s : str) (st : state) :
  dict_get d (str_of "priority") = Some (PStr s) ->
  lower s = str_of "critical" ->
  exists md records,
    returns (detect_tone message (Some d)) st (str_of "direct", md) records
    /\ confidence md = axis_score message urgency_patterns.
Proof.
  intros Hd Hs.
  assert (Htext : priority_is_text (Some d)).
  { intros n. unfold priority_field. rewrite Hd. discriminate. }
  assert (Hc : is_critical (Some d) = true).
  { apply is_critical_spec. unfold effective_priority, priority_field.
    now rewrite Hd. }
  pose proof (@detect_tone_run _ message (Some d) st
                (priority_is_text_lowers Htext)) as Hrun.
  unfold detection, decision in Hrun. rewrite Hc, orb_true_r in Hrun.
  eexists. eexists. split; [exact Hrun | reflexivity].
Qed.


(** X4. What a returned tone says about the message: "empathetic" needs
    at least two of the four complaint patterns, "friendly" at least two of
    the four positive patterns, "formal" at least one formality pattern,
    always without any urgency pattern and below the thresholds of the
    rules that come first; "direct" needs an urgency pattern or the
    critical priority; "professional" is left when no urgency or formality
    pattern and at most one complaint and one positive pattern match. *)
Theorem tone_tells_matches (message : str) (context : option (dict pyval))
  (st st' : state) (tone : str) (md : ToneDetection) :
  detect_tone message context st = (Ok (tone, md), st') ->
  let urgency := count_matches message urgency_patterns in
  let complaint := count_matches message complaint_patterns in
  let formality := count_matches message formal_patterns in
  let positivity := count_matches message positive_patterns in
  (tone = str_of "direct" ->
   (1 <= urgency)%nat \/ effective_priority context = str_of "critical")
  /\ (tone = str_of "empathetic" -> urgency = 0%nat /\ (2 <= complaint)%nat)
  /\ (tone = str_of "formal" ->
      urgency = 0%nat /\ (complaint <= 1)%nat /\ (1 <= formality)%nat)
  /\ (tone = str_of "friendly" ->
      urgency = 0%nat /\ (complaint <= 1)%nat /\ formality = 0%nat
      /\ (2 <= positivity)%nat)
  /\ (tone = str_of "professional" ->
      urgency = 0%nat /\ (complaint <= 1)%nat /\ formality = 0%nat
      /\ (positivity <= 1)%nat).
Proof.
  intros H. apply detect_tone_inv in H. unfold detection in H.
  destruct (decision _ _ _ _ _) as [t c] eqn:Ed.
  injection H as -> _.
  pose proof (decision_obeys_rules message context Ed) as Hrule.
  cbv zeta.
  assert (Hu : (0.3 <? axis_score message urgency_patterns)%float = false ->
               count_matches message urgency_patterns = 0%nat).
  { intros E. pose proof (below_threshold (urgency_threshold message) E). lia. }
  assert (Hco : (0.3 <? axis_score message complaint_patterns)%float = false ->
                (count_matches message complaint_patterns <= 1)%nat).
  { intros E. pose proof (below_threshold (complaint_threshold message) E). lia. }
  assert (Hf : (0.3 <? axis_score message formal_patterns)%float = false ->
               count_matches message formal_patterns = 0%nat).
  { intros E. pose proof (below_threshold (formality_threshold message) E). lia. }
  assert (Hp : (0.3 <? axis_score message positive_patterns)%float = false ->
               (count_matches message positive_patterns <= 1)%nat).
  { intros E. pose proof (below_threshold (positivity_threshold message) E). lia. }
  inversion Hrule; subst; repeat apply conj; try discriminate; intros _;
    repeat apply conj;
    try (apply Hu; assumption); try (apply Hco; assumption);
    try (apply Hf; assumption); try (apply Hp; assumption);
    try (apply complaint_threshold; assumption);
    try (apply formality_threshold; assumption);
    try (apply positivity_threshold; assumption);
    try (apply Hco;
         match goal with E : axis_score message complaint_patterns = _ |- _ =>
           rewrite E; reflexivity end);
    try (apply Hf;
         match goal with E : axis_score message formal_patterns = _ |- _ =>
           rewrite E; reflexivity end);
    try (apply Hp;
         match goal with E : axis_score message positive_patterns = _ |- _ =>
           rewrite E; reflexivity end).
  match goal with Hd : _ \/ _ |- _ => destruct Hd as [Hd|Hd] end;
    [left; now apply urgency_threshold | now right].
Qed.

End DetectorExtras.

(** A score is 0, for no match, or at least a quarter. *)
Lemma ratio3_zero_or_quarter (k : nat) :
  (k <= 3)%nat ->
  (k = 0%nat /\ capped_ratio k 3 = 0%float)
  \/ ((1 <= k)%nat /\ (capped_ratio k 3 =? 0)%float = false
      /\ (0.25 <=? capped_ratio k 3)%float = true).
Proof.
  intros H. destruct k as [|k]; [left; split; reflexivity|].
  right. do 3 (destruct k as [|k]; [repeat split; lia|]). lia.
Qed.

Lemma ratio4_zero_or_quarter (k : nat) :
  (k <= 4)%nat ->
  (k = 0%nat /\ capped_ratio k 4 = 0%float)
  \/ ((1 <= k)%nat /\ (capped_ratio k 4 =? 0)%float = false
      /\ (0.25 <=? capped_ratio k 4)%float = true).
Proof.
  intros H. destruct k as [|k]; [left; split; reflexivity|].
  right. do 4 (destruct k as [|k]; [repeat split; lia|]). lia.
Qed.

Section DetectorConfidence.
Context {UD : UnicodeData}.

(** X5. The confidence [detect_tone] returns is 0 exactly when the tone is
    "direct" and no urgency pattern matches, that is when the critical
    priority alone decided; in every other case it is at least 0.25. *)
Theorem confidence_zero_only_by_priority (message : str)
  (context : option (dict pyval)) (st st' : state) (tone : str)
  (md : ToneDetection) :
  detect_tone message context st = (Ok (tone, md), st') ->
  (confidence md = 0%float
   <-> tone = str_of "direct" /\ count_matches message urgency_patterns = 0%nat)
  /\ (confidence md <> 0%float -> (0.25 <=? confidence md)%float = true).
Proof.
  intros H. apply detect_tone_inv in H. unfold detection in H.
  destruct (decision _ _ _ _ _) as [t c] eqn:Ed.
  injection H as -> ->. cbn [confidence].
  assert (Hnz : forall x : float, (x =? 0)%float = false -> x <> 0%float).
  { intros x E ->. discriminate E. }
  assert (Hpos : forall (k n : nat),
             (0.3 <? capped_ratio k n)%float = true -> capped_ratio k n <> 0%float).
  { intros k n E E0. rewrite E0 in E. discriminate E. }
  destruct (str_eqb t (str_of "professional")) eqn:Et.
  { apply str_eqb_eq in Et. subst t.
    apply decision_professional in Ed as (_ & _ & _ & _ & _ & [->| ->] & _);
      (split; [split; [intros E; apply (f_equal (fun x => (x =? 0)%float)) in E;
                       discriminate E
                      | intros [E _]; discriminate E]
              | intros _; reflexivity]). }
  pose proof (decision_obeys_rules message context Ed) as Hrule.
  inversion Hrule; subst; try (rewrite str_eqb_refl in Et; discriminate Et).
  - (* direct *)
    destruct (ratio3_zero_or_quarter (count_matches_le message urgency_patterns))
      as [[Hk Hz]|(Hk & Hz & Hq)].
    + split; [split; [intros _; split; [reflexivity | exact Hk]
                     | intros _; exact Hz]
             | intros Hn; destruct (Hn Hz)].
    + split; [split; [intros E; destruct (Hnz _ Hz E)
                     | intros [_ E]; fold (count_matches message urgency_patterns) in *; lia]
             | intros _; exact Hq].
  - (* empathetic *)
    destruct (ratio4_zero_or_quarter (count_matches_le message complaint_patterns))
      as [[Hk Hz]|(Hk & Hz & Hq)].
    + exfalso. unfold axis_score in *. simpl length in *.
      match goal with E : (0.3 <? capped_ratio _ 4)%float = true |- _ =>
        rewrite Hz in E; discriminate E end.
    + split; [split; [intros E; destruct (Hnz _ Hz E) | intros [E _]; discriminate E]
             | intros _; exact Hq].
  - (* formal *)
    destruct (ratio3_zero_or_quarter (count_matches_le message formal_patterns))
      as [[Hk Hz]|(Hk & Hz & Hq)].
    + exfalso. unfold axis_score in *. simpl length in *.
      match goal with E : (0.3 <? capped_ratio _ 3)%float = true |- _ =>
        rewrite Hz in E; discriminate E end.
    + split; [split; [intros E; destruct (Hnz _ Hz E) | intros [E _]; discriminate E]
             | intros _; exact Hq].
  - (* friendly *)
    destruct (ratio4_zero_or_quarter (count_matches_le message positive_patterns))
      as [[Hk Hz]|(Hk & Hz & Hq)].
    + exfalso. unfold axis_score in *. simpl length in *.
      match goal with E : (0.3 <? capped_ratio _ 4)%float = true |- _ =>
        rewrite Hz in E; discriminate E end.
    + split; [split; [intros E; destruct (Hnz _ Hz E) | intros [E _]; discriminate E]
             | intros _; exact Hq].
Qed.

End DetectorConfidence.

(** *** Closed instances *)

(** A priority in mixed case on a friendly message. *)
Lemma critical_priority_gives_direct_witness :
  dict_get [(str_of "priority", PStr (str_of "Critical"))] (str_of "priority")
    = Some (PStr (str_of "Critical"))
  /\ lower (UD := ascii_only) (str_of "Critical") = str_of "critical"
  /\ exists md records,
       returns (detect_tone (UD := ascii_only) (str_of "Thank you, I love it")
                  (Some [(str_of "priority", PStr (str_of "Critical"))]))
               initial_state (str_of "direct", md) records
       /\ confidence md
          = axis_score (UD := ascii_only) (str_of "Thank you, I love it")
                       urgency_patterns.
Proof.
  split; [reflexivity|]. split; [reflexivity|].
  exact (@critical_priority_gives_direct ascii_only (str_of "Thank you, I love it")
           [(str_of "priority", PStr (str_of "Critical"))] (str_of "Critical")
           initial_state eq_refl eq_refl).
Defined.

(** A numeric priority makes the detector raise. *)
Example numeric_priority_raises :
  exists st',
    detect_tone (UD := ascii_only) mild_complaint numeric_priority initial_state
    = (Raise (AttributeError (str_of "'int' object has no attribute 'lower'")), st').
Proof. eexists. vm_compute. reflexivity. Qed.

(** Two complaint words: "empathetic". *)
Lemma tone_tells_matches_witness :
  angry_result = (Ok (str_of "empathetic", angry_detection), snd angry_result)
  /\ count_matches (UD := ascii_only) angry_message urgency_patterns = 0%nat
  /\ (2 <= count_matches (UD := ascii_only) angry_message complaint_patterns)%nat.
Proof.
  assert (H : angry_result
              = (Ok (str_of "empathetic", angry_detection), snd angry_result))
    by (vm_compute; reflexivity).
  split; [exact H|].
  exact (proj1 (proj2 (@tone_tells_matches ascii_only angry_message None
                         initial_state _ _ _ H)) eq_refl).
Defined.

(** The same result has a confidence of at least a quarter. *)
Lemma confidence_zero_only_by_priority_witness :
  angry_result = (Ok (str_of "empathetic", angry_detection), snd angry_result)
  /\ (confidence angry_detection <> 0%float ->
      (0.25 <=? confidence angry_detection)%float = true).
Proof.
  assert (H : angry_result
              = (Ok (str_of "empathetic", angry_detection), snd angry_result))
    by (vm_compute; reflexivity).
  split; [exact H|].
  exact (proj2 (@confidence_zero_only_by_priority ascii_only angry_message None
                  initial_state _ _ _ H)).
Defined.

(* ===================================================================== *)
(** ** Further properties: post-processing *)
(* ===================================================================== *)

Lemma occurs_strip (w s : str) : occurs w (strip s) -> occurs w s.
Proof.
  intros (pre & post & E).
  destruct (strip_spec s) as (ws1 & ws2 & Hs & _).
  exists (ws1 ++ pre), (post ++ ws2).
  rewrite Hs at 1. rewrite E. now rewrite <- !app_assoc.
Qed.

Lemma lstrip_fixed (s : str) : no_space_at_head s -> lstrip s = s.
Proof.
  destruct s as [|c s]; [reflexivity|].
  unfold no_space_at_head. simpl. intros E. now rewrite E.
Qed.

(** A text without white space at either end is left alone. *)
Lemma strip_fixed (s : str) :
  no_space_at_head s -> no_space_at_head (rev s) -> strip s = s.
Proof.
  intros H1 H2. unfold strip, rstrip.
  rewrite (@lstrip_fixed _ H1), (@lstrip_fixed _ H2). apply rev_involutive.
Qed.

Lemma strip_idempotent (s : str) : strip (strip s) = strip s.
Proof.
  destruct (strip_spec s) as (_ & _ & _ & _ & _ & H1 & H2).
  now apply strip_fixed.
Qed.

(** Without an end marker there is nothing to cut. *)
Lemma after_last_close_none (s : str) :
  ~ occurs think_close s -> after_last_close s = s.
Proof.
  intros H. unfold after_last_close. rewrite split_nonempty_eq.
  apply str_find_none in H. fold think_close.
  change (chr "<" :: str_of "/think>") with think_close. now rewrite H.
Qed.

(** The last piece of a split holds no separator. *)
Lemma split_last_no_separator (c : codepoint) (sep' s : str) :
  ~ occurs (c :: sep') (last_item (split_nonempty c sep' s)).
Proof.
  unfold last_item. funelim (split_nonempty c sep' s).
  - rewrite last_cons_nonempty by apply split_nonempty_not_nil. assumption.
  - simpl. now apply str_find_none.
Qed.

(** The message has no white space at either end, and no end marker when
    the trimmed text held a start marker. *)
Lemma cleaned_message_shape (text : str) :
  no_space_at_head (clean_response text)
  /\ no_space_at_head (rev (clean_response text))
  /\ (occurs think_open (strip text) -> ~ occurs think_close (clean_response text)).
Proof.
  unfold clean_response.
  destruct (contains think_open (strip text)) eqn:E.
  - destruct (strip_spec (after_last_close (strip text)))
      as (_ & _ & _ & _ & _ & H1 & H2).
    repeat split; auto.
    intros _ H. apply occurs_strip in H.
    exact (@split_last_no_separator (chr "<") (str_of "/think>") (strip text) H).
  - destruct (strip_spec text) as (_ & _ & _ & _ & _ & H1 & H2).
    repeat split; auto.
    intros H. apply contains_occurs in H. congruence.
Qed.

(** X6. The message [clean_response] returns has no white space at either
    end; when the trimmed text held a start marker it holds no end marker
    any more; and cleaning it again changes nothing. *)
Theorem clean_response_idempotent (text : str) :
  no_space_at_head (clean_response text)
  /\ no_space_at_head (rev (clean_response text))
  /\ (occurs think_open (strip text) -> ~ occurs think_close (clean_response text))
  /\ clean_response (clean_response text) = clean_response text.
Proof.
  destruct (cleaned_message_shape text) as (H1 & H2 & H3).
  repeat apply conj; auto.
  assert (Hs : strip (clean_response text) = clean_response text)
    by now apply strip_fixed.
  unfold clean_response at 1. rewrite Hs.
  destruct (contains think_open (clean_response text)) eqn:E; [|reflexivity].
  assert (Hn : ~ occurs think_close (clean_response text)).
  { unfold clean_response in *.
    destruct (contains think_open (strip text)) eqn:E0.
    - apply H3. now apply contains_occurs.
    - congruence. }
  now rewrite (@after_last_close_none _ Hn).
Qed.

(** X7. A text without an end marker is only trimmed: a thinking segment
    that is opened and never closed stays in the message. *)
Theorem unclosed_segment_is_kept (text : str) :
  ~ occurs think_close (strip text) -> clean_response text = strip text.
Proof.
  intros H. unfold clean_response.
  destruct (contains think_open (strip text)); [|reflexivity].
  rewrite (@after_last_close_none _ H). apply strip_idempotent.
Qed.

(** An opened segment without its end. *)
Lemma unclosed_segment_is_kept_witness :
  ~ occurs think_close (strip unclosed_reply)
  /\ clean_response unclosed_reply = str_of "<think>still thinking".
Proof.
  assert (H : ~ occurs think_close (strip unclosed_reply))
    by (now apply str_find_none).
  split; [exact H|].
  exact (unclosed_segment_is_kept unclosed_reply H).
Defined.

(* ===================================================================== *)
(** ** Further properties: the email path *)
(* ===================================================================== *)

(** Assignment and lookup in a dictionary. *)
Lemma dict_get_set_same (V : Type) (d : dict V) (k : str) (v : V) :
  dict_get (dict_set d k v) k = Some v.
Proof.
  induction d as [|[k' v'] d IH]; simpl.
  - now rewrite str_eqb_refl.
  - destruct (str_eqb k' k) eqn:E; simpl; rewrite E; [reflexivity | exact IH].
Qed.

Lemma dict_get_set_other (V : Type) (d : dict V) (k k' : str) (v : V) :
  k <> k' -> dict_get (dict_set d k v) k' = dict_get d k'.
Proof.
  intros Hne. induction d as [|[k0 v0] d IH]; simpl.
  - destruct (str_eqb k k') eqn:E; [|reflexivity].
    apply str_eqb_eq in E. contradiction.
  - destruct (str_eqb k0 k) eqn:E; simpl.
    + destruct (str_eqb k0 k') eqn:E'; [|reflexivity].
      apply str_eqb_eq in E, E'. congruence.
    + now rewrite IH.
Qed.

Section EmailPath.
Context {UD : UnicodeData}.
Variable env : Env.

(** The tone a request resolves to, as a member of the enumeration. *)
Lemma resolved_tone (request : EmailRequest) :
  exists t md,
    (forall t', tone request = Some t' -> t = t' /\ md = None)
    /\ (tone request = None ->
        md = Some (snd (detection (customer_message request)
                                  (detector_context request)))
        /\ fst (detection (customer_message request) (detector_context request))
           = ToneType_value t)
    /\ forall st, exists records,
         generate_email_response env request st
         = match llm env (prompt_text request (guideline t)) with
           | Ok text =>
               (Ok (response_for env (ToneType_value t)
                      (prompt_text request (guideline t)) text md),
                add_log st records)
           | Raise e =>
               (Raise e, add_log st (records ++ [(ERROR, ERROR_GENERATING e)]))
           end.
Proof.
  destruct (tone request) as [t|] eqn:Et.
  - exists t, None. split; [intros t' [= <-]; auto|]. split; [discriminate|].
    intros st. eexists. rewrite (@generate_explicit_run _ env request t st Et).
    cbv zeta. destruct (llm env (prompt_text request (guideline t)));
      [reflexivity|].
    unfold add_log. cbn. rewrite <- app_assoc. reflexivity.
  - pose proof (fun st => @generate_detected_run _ env request st Et) as Hrun.
    destruct (detection_member (customer_message request) (detector_context request))
      as (t & Ht & _).
    exists t, (Some (snd (detection (customer_message request)
                                    (detector_context request)))).
    split; [discriminate|]. split; [auto|].
    intros st. destruct (Hrun st) as (t' & Ht' & Hr). cbv zeta in Hr, Ht'.
    assert (t' = t).
    { rewrite Ht in Ht'. destruct t, t'; (reflexivity || discriminate Ht'). }
    subst t'. eexists. rewrite Hr.
    destruct (llm env (prompt_text request (guideline t))); [reflexivity|].
    unfold add_log. cbn. rewrite <- app_assoc. reflexivity.
Qed.

(** X8. [generate_email_response] raises exactly what the generation
    capability raises on the assembled prompt, and nothing else: the
    exception propagates unchanged after an ERROR record, the agent's
    context is not touched, and when the generation answers the call
    returns. *)
Theorem generation_failure_propagates (request : EmailRequest) :
  exists t,
    (forall t', tone request = Some t' -> t = t')
    /\ (forall st e st',
          generate_email_response env request st = (Raise e, st') ->
          llm env (prompt_text request (guideline t)) = Raise e
          /\ In (ERROR, ERROR_GENERATING e) (log st')
          /\ agent_context st' = agent_context st)
    /\ (forall st e,
          llm env (prompt_text request (guideline t)) = Raise e ->
          exists st', generate_email_response env request st = (Raise e, st'))
    /\ (forall st text,
          llm env (prompt_text request (guideline t)) = Ok text ->
          exists resp st', generate_email_response env request st = (Ok resp, st')).
Proof.
  destruct (resolved_tone request) as (t & md & Hexp & _ & Hrun).
  exists t. split; [intros t' E; now apply Hexp|].
  repeat apply conj.
  - intros st e st' H. destruct (Hrun st) as (records & Hr). rewrite Hr in H.
    destruct (llm env (prompt_text request (guideline t))) as [text|e'];
      [discriminate|].
    injection H as <- <-. split; [reflexivity|]. split; [|reflexivity].
    cbn. rewrite app_assoc. apply in_or_app. right. now left.
  - intros st e H. destruct (Hrun st) as (records & Hr). rewrite Hr, H. eauto.
  - intros st text H. destruct (Hrun st) as (records & Hr). rewrite Hr, H. eauto.
Qed.

(** X9. Every response of [generate_email_response] has status code 200,
    a tone among the five labels, a message without white space at either
    end, the four generation settings as the configuration of the process
    has them (0.3, 4096, 0.9 and 40 when the configuration leaves the class
    defaults in place), and a [tone_detection] exactly when the request
    named no tone, in which case its detected tone is the tone used; the
    agent's context is not touched. *)
Theorem response_invariants (request : EmailRequest) (st st' : state)
  (resp : EmailResponse) :
  generate_email_response env request st = (Ok resp, st') ->
  status_code resp = 200%Z
  /\ In (tone_used (metadata resp)) tone_labels
  /\ no_space_at_head (message resp)
  /\ no_space_at_head (rev (message resp))
  /\ generation_settings (metadata resp)
     = [ (str_of "temperature", TEMPERATURE (settings env));
         (str_of "max_tokens", float_of_Z (MAX_TOKENS (settings env)));
         (str_of "top_p", TOP_P (settings env));
         (str_of "top_k", float_of_Z (TOP_K (settings env))) ]
  /\ (settings env = default_settings ->
      map snd (generation_settings (metadata resp))
      = [0.3; 4096; 0.9; 40]%float)
  /\ (tone_detection (metadata resp) = None <-> tone request <> None)
  /\ (forall d, tone_detection (metadata resp) = Some d ->
                detected_tone d = tone_used (metadata resp))
  /\ agent_context st' = agent_context st.
Proof.
  intros H.
  destruct (resolved_tone request) as (t & md & Hexp & Hdet & Hrun).
  destruct (Hrun st) as (records & Hr). rewrite Hr in H.
  destruct (llm env (prompt_text request (guideline t))) as [text|e];
    [|discriminate].
  injection H as <- <-.
  unfold response_for. cbn [status_code metadata tone_used message
                            generation_settings tone_detection].
  destruct (cleaned_message_shape text) as (H1 & H2 & _).
  repeat apply conj; auto.
  - unfold tone_labels. apply in_map. destruct t; simpl; auto 10.
  - intros ->. reflexivity.
  - intros ->. destruct (tone request) as [t'|] eqn:Et; [discriminate|].
    destruct (Hdet eq_refl) as [E _]. discriminate E.
  - intros Hn. destruct (tone request) as [t'|] eqn:Et; [|contradiction].
    now destruct (Hexp t' eq_refl).
  - intros d ->. destruct (tone request) as [t'|] eqn:Et.
    + destruct (Hexp t' eq_refl) as [_ E]. discriminate E.
    + destruct (Hdet eq_refl) as [[= ->] Ht]. rewrite <- Ht.
      pose proof (detection_shape (customer_message request)
                    (detector_context request)) as Hs.
      destruct (detection _ _) as [tn d']. cbn. now destruct Hs as (_ & -> & _).
Qed.

(** The facade with an explicit tone, step by step. *)
Lemma agent_explicit_run (request : EmailRequest) (t : ToneType) (st : state) :
  tone request = Some t ->
  let recorded :=
    dict_set (dict_set (dict_set (agent_context st)
                          (str_of "last_email") (customer_message request))
                (str_of "last_tone") (ToneType_value t))
      (str_of "last_timestamp") (utcnow env) in
  let prompt := prompt_text request (guideline t) in
  AIAgent.generate_email_response env request st
  = match llm env prompt with
    | Ok text =>
        (Ok (response_for env (ToneType_value t) prompt text None),
         {| log := log st ++ [ (DEBUG, AGENT_REQUEST (Some t));
                               (DEBUG, GENERATING (ToneType_value t));
                               (DEBUG, AGENT_RESPONSE 200) ];
            agent_context := recorded |})
    | Raise e =>
        (Raise e,
         {| log := log st ++ [ (DEBUG, AGENT_REQUEST (Some t));
                               (DEBUG, GENERATING (ToneType_value t));
                               (ERROR, ERROR_GENERATING e) ];
            agent_context := recorded |})
    end.
Proof.
  intros Et. cbv zeta.
  unfold AIAgent.generate_email_response, bind. cbn [logger context_set].
  rewrite Et. cbn [AIAgent.tone_value_attr ret log agent_context].
  match goal with |- context [generate_email_response env request ?s] =>
    rewrite (@generate_explicit_run _ env request t s Et) end.
  cbv zeta.
  destruct (llm env (prompt_text request (guideline t)));
    unfold add_log; cbn; rewrite <- ?app_assoc; reflexivity.
Qed.

(** X10. With an explicit tone the facade returns the response of the
    service, or raises what the generation raised, and in both cases it has
    recorded the message, the tone and the time under [last_email],
    [last_tone] and [last_timestamp], leaving every other entry of its
    context as it was. *)
Theorem agent_records_request (request : EmailRequest) (t : ToneType) (st : state) :
  tone request = Some t ->
  let prompt := prompt_text request (guideline t) in
  let result := AIAgent.generate_email_response env request st in
  fst result
  = match llm env prompt with
    | Ok text => Ok (response_for env (ToneType_value t) prompt text None)
    | Raise e => Raise e
    end
  /\ dict_get (agent_context (snd result)) (str_of "last_email")
     = Some (customer_message request)
  /\ dict_get (agent_context (snd result)) (str_of "last_tone")
     = Some (ToneType_value t)
  /\ dict_get (agent_context (snd result)) (str_of "last_timestamp")
     = Some (utcnow env)
  /\ forall k, ~ In k email_keys ->
       dict_get (agent_context (snd result)) k = dict_get (agent_context st) k.
Proof.
  intros Et. cbv zeta. rewrite (agent_explicit_run _ st Et). cbv zeta.
  assert (Hctx : forall o : Result EmailResponse * state,
             agent_context (snd o)
             = dict_set (dict_set (dict_set (agent_context st)
                          (str_of "last_email") (customer_message request))
                          (str_of "last_tone") (ToneType_value t))
                 (str_of "last_timestamp") (utcnow env) ->
             dict_get (agent_context (snd o)) (str_of "last_email")
               = Some (customer_message request)
             /\ dict_get (agent_context (snd o)) (str_of "last_tone")
                = Some (ToneType_value t)
             /\ dict_get (agent_context (snd o)) (str_of "last_timestamp")
                = Some (utcnow env)
             /\ forall k, ~ In k email_keys ->
                  dict_get (agent_context (snd o)) k = dict_get (agent_context st) k).
  { intros o ->. repeat apply conj.
    - rewrite !dict_get_set_other by discriminate. apply dict_get_set_same.
    - rewrite dict_get_set_other by discriminate. apply dict_get_set_same.
    - apply dict_get_set_same.
    - intros k Hk. rewrite !dict_get_set_other; [reflexivity| | |];
        intros <-; apply Hk; cbn; auto. }
  destruct (llm env (prompt_text request (guideline t)));
    (split; [reflexivity | apply Hctx; reflexivity]).
Qed.

End EmailPath.

(** *** Closed instances *)

(** The generation is down: the service raises its error. *)
Example generation_down_propagates :
  exists st',
    generate_email_response (UD := ascii_only) failing_env formal_request
      initial_state
    = (Raise (GenerationError (str_of "connection refused")), st')
    /\ log st' = [ (DEBUG, GENERATING (str_of "formal"));
                   (ERROR, ERROR_GENERATING
                             (GenerationError (str_of "connection refused"))) ].
Proof. eexists. split; vm_compute; reflexivity. Qed.

(** The response to the request without a tone. *)
Lemma response_invariants_witness :
  auto_run = (Ok auto_response, snd auto_run)
  /\ status_code auto_response = 200%Z
  /\ In (tone_used (metadata auto_response)) tone_labels.
Proof.
  assert (H : auto_run = (Ok auto_response, snd auto_run))
    by (vm_compute; reflexivity).
  split; [exact H|].
  destruct (@response_invariants ascii_only canned_env auto_request
              initial_state _ _ H) as (H1 & H2 & _).
  split; [exact H1 | exact H2].
Defined.

(** A configuration that departs from the defaults is the one reported. *)
Example configured_settings_are_reported :
  exists resp st',
    generate_email_response (UD := ascii_only) tuned_env formal_request
      initial_state = (Ok resp, st')
    /\ map snd (generation_settings (metadata resp))
       = [0.7; 512; 0.9; 40]%float.
Proof. eexists. eexists. split; vm_compute; reflexivity. Qed.

(** The formal request through the facade. *)
Lemma agent_records_request_witness :
  tone formal_request = Some FORMAL
  /\ dict_get (agent_context
                 (snd (AIAgent.generate_email_response (UD := ascii_only)
                         canned_env formal_request initial_state)))
              (str_of "last_tone")
     = Some (str_of "formal").
Proof.
  split; [reflexivity|].
  exact (proj1 (proj2 (proj2 (@agent_records_request ascii_only canned_env
                                formal_request FORMAL initial_state eq_refl)))).
Defined.

(* ===================================================================== *)
(** ** Further properties: health check and routes *)
(* ===================================================================== *)

(** A text trims to nothing exactly when it is blank. *)
Lemma strip_blank (text : str) :
  str_truthy (strip text) = false <-> all_space text.
Proof.
  destruct (strip_spec text) as (ws1 & ws2 & E & H1 & H2 & Hh & _).
  split.
  - intros H. destruct (strip text) as [|c s]; [|discriminate].
    rewrite E. apply Forall_app. split; [exact H1 | exact H2].
  - intros H. destruct (strip text) as [|c s] eqn:Es; [reflexivity|].
    exfalso. unfold all_space in H. rewrite E in H.
    apply Forall_app in H as [_ H]. inversion H as [|x l Hc _]; subst.
    unfold no_space_at_head in Hh. congruence.
Qed.

Lemma strip_not_blank (text : str) :
  str_truthy (strip text) = true <-> ~ all_space text.
Proof.
  rewrite <- strip_blank. destruct (str_truthy (strip text)); split; congruence.
Qed.

Section Health.
Variable env : Env.

Lemma healthy_dec : healthy env \/ ~ healthy env.
Proof.
  unfold healthy. destruct (llm env (str_of "Hi")) as [text|e] eqn:E.
  - destruct (str_truthy (strip text)) eqn:Et.
    + left. exists text. split; [first [exact E | reflexivity] | now apply strip_not_blank].
    + right. intros (text' & E' & Hn). try rewrite E in E'. injection E' as <-.
      apply strip_blank in Et. contradiction.
  - right. intros (text' & H & _). try rewrite E in H. discriminate H.
Qed.

Lemma health_check_healthy (st : app_state) :
  healthy env -> AIAgent.health_check env st = (Return true, st).
Proof.
  intros (text & E & Hn). unfold AIAgent.health_check, app_try, app_bind, of_result.
  rewrite E. apply strip_not_blank in Hn. unfold app_ret. now rewrite Hn.
Qed.

Lemma health_check_unhealthy (st : app_state) :
  ~ healthy env ->
  exists records, AIAgent.health_check env st = (Return false, app_add_log st records).
Proof.
  intros Hn. unfold AIAgent.health_check, app_try, app_bind, of_result.
  destruct (llm env (str_of "Hi")) as [text|e] eqn:E.
  - destruct (str_truthy (strip text)) eqn:Et.
    + destruct Hn. exists text. split; [first [exact E | reflexivity] | now apply strip_not_blank].
    + exists []. unfold app_ret, app_add_log. try rewrite Et. rewrite app_nil_r.
      destruct st; reflexivity.
  - eexists. reflexivity.
Qed.

(** X11. [health_check] never raises and touches neither the agent's
    context nor the conversation memory; it answers [True] exactly when the
    generation capability answers the probe ["Hi"] with a text that is not
    blank, so a blank answer and a failure both count as unhealthy. *)
Theorem health_check_spec (st : app_state) :
  exists b records,
    AIAgent.health_check env st = (Return b, app_add_log st records)
    /\ (b = true <-> healthy env).
Proof.
  destruct healthy_dec as [H|H].
  - exists true, []. rewrite (health_check_healthy st H).
    unfold app_add_log. rewrite app_nil_r. destruct st. split; [reflexivity | tauto].
  - destruct (health_check_unhealthy st H) as (records & Hr).
    exists false, records. split; [exact Hr|]. split; [discriminate | contradiction].
Qed.

End Health.

Section Routes.
Context {UD : UnicodeData}.
Variable env : Env.
Variable conversation : chain.

Lemma health_check_cases (st : app_state) :
  exists b records, AIAgent.health_check env st = (Return b, app_add_log st records).
Proof.
  destruct (healthy_dec env) as [H|H].
  - exists true, []. rewrite (health_check_healthy st H).
    unfold app_add_log. rewrite app_nil_r. now destruct st.
  - destruct (health_check_unhealthy st H) as (records & Hr). eauto.
Qed.

(** X12. The status route answers "running", version "1.0.0", exactly when
    the service is healthy, and raises [HTTPException] 503 "Service
    unhealthy" otherwise. *)
Theorem get_status_spec (st : app_state) :
  (healthy env ->
   endpoints.get_status env st
   = (Return {| status := str_of "running"; version := str_of "1.0.0";
                status_timestamp := utcnow env |}, st))
  /\ (~ healthy env ->
      exists records,
        endpoints.get_status env st
        = (Raised (HTTPException 503 (str_of "Service unhealthy")
                     (TEXT (str_of "AI service is not responding"))),
           app_add_log st records)).
Proof.
  split; intros H; unfold endpoints.get_status, app_bind.
  - rewrite (health_check_healthy st H). reflexivity.
  - destruct (health_check_unhealthy st H) as (records & ->).
    exists records. reflexivity.
Qed.

(** X13. When the service is unhealthy the email route and the chat route
    raise [HTTPException] 503 without reaching the agent: its context and
    the conversation memory are as before. *)
Theorem unhealthy_routes_refuse (st : app_state) :
  ~ healthy env ->
  (forall request, exists st',
     endpoints.generate_email_response env request st = (Raised unavailable, st')
     /\ app_context st' = app_context st /\ chat_memory st' = chat_memory st)
  /\ (forall message, exists st',
        endpoints.chat_with_ai env conversation message st = (Raised unavailable, st')
        /\ app_context st' = app_context st /\ chat_memory st' = chat_memory st).
Proof.
  intros H. destruct (health_check_unhealthy st H) as (records & Hr).
  split; intros x; eexists;
    unfold endpoints.generate_email_response, endpoints.chat_with_ai,
           app_try, app_bind;
    rewrite Hr; cbn; repeat split.
Qed.

(** X14. A request without a tone never gets a response from the email
    route: it raises [HTTPException] 503 when the service is unhealthy and
    [HTTPException] 500 "Internal server error", for the facade's
    [AttributeError], when it is healthy. *)
Theorem email_route_without_tone (message : str) (c : option EmailContext)
  (limit : option Z) (st : app_state) :
  let request := {| customer_message := message; context := c; tone := None;
                    max_length := limit |} in
  (healthy env ->
   exists st',
     endpoints.generate_email_response env request st
     = (Raised (internal_error no_tone_error), st'))
  /\ (~ healthy env ->
      exists st',
        endpoints.generate_email_response env request st
        = (Raised unavailable, st')).
Proof.
  cbv zeta. split; intros H;
    unfold endpoints.generate_email_response, app_try, app_bind.
  - rewrite (health_check_healthy st H). eexists. reflexivity.
  - destruct (health_check_unhealthy st H) as (records & ->).
    eexists. reflexivity.
Qed.

(** The facade run from the application. *)
Lemma lift_agent_explicit (request : EmailRequest) (t : ToneType) (st : app_state) :
  tone request = Some t ->
  let prompt := prompt_text request (guideline t) in
  let recorded :=
    dict_set (dict_set (dict_set (app_context st)
                          (str_of "last_email") (customer_message request))
                (str_of "last_tone") (ToneType_value t))
      (str_of "last_timestamp") (utcnow env) in
  lift (AIAgent.generate_email_response env request) st
  = match llm env prompt with
    | Ok text =>
        (Return (response_for env (ToneType_value t) prompt text None),
         {| app_log := app_log st
                       ++ [ (DEBUG, SERVICE (AGENT_REQUEST (Some t)));
                            (DEBUG, SERVICE (GENERATING (ToneType_value t)));
                            (DEBUG, SERVICE (AGENT_RESPONSE 200)) ];
            app_context := recorded;
            chat_memory := chat_memory st |})
    | Raise e =>
        (Raised (EXN e),
         {| app_log := app_log st
                       ++ [ (DEBUG, SERVICE (AGENT_REQUEST (Some t)));
                            (DEBUG, SERVICE (GENERATING (ToneType_value t)));
                            (ERROR, SERVICE (ERROR_GENERATING e)) ];
            app_context := recorded;
            chat_memory := chat_memory st |})
    end.
Proof.
  intros Et. cbv zeta. unfold lift.
  rewrite (@agent_explicit_run _ env request t _ Et). cbv zeta.
  destruct (llm env (prompt_text request (guideline t))); reflexivity.
Qed.

(** X15. For a healthy service and a request with an explicit tone, the
    email route returns the response built from the generated text, and
    when the generation fails on the prompt it raises [HTTPException] 500
    "Internal server error" with that failure as details; in both cases the
    agent has recorded the request. *)
Theorem email_route_with_tone (request : EmailRequest) (t : ToneType)
  (st : app_state) :
  healthy env ->
  tone request = Some t ->
  let prompt := prompt_text request (guideline t) in
  exists st',
    endpoints.generate_email_response env request st
    = (match llm env prompt with
       | Ok text => Return (response_for env (ToneType_value t) prompt text None)
       | Raise e => Raised (internal_error e)
       end, st')
    /\ dict_get (app_context st') (str_of "last_email")
       = Some (customer_message request)
    /\ chat_memory st' = chat_memory st.
Proof.
  intros H Et. cbv zeta.
  unfold endpoints.generate_email_response, app_try, app_bind.
  rewrite (health_check_healthy st H). cbn [negb app_ret app_logger].
  rewrite (lift_agent_explicit _ _ Et). cbv zeta.
  destruct (llm env (prompt_text request (guideline t))); eexists;
    (split; [reflexivity|]); cbn;
    (split; [|reflexivity]);
    rewrite !dict_get_set_other by discriminate; apply dict_get_set_same.
Qed.

(** X16. The clear route empties the conversation memory and the agent's
    context and then always raises [HTTPException] 500 "Failed to clear
    chat history": the status it wants to answer with, "conversation
    cleared", is not one the status model accepts. *)
Theorem clear_chat_always_fails (st : app_state) :
  exists st',
    endpoints.clear_chat env st
    = (Raised (HTTPException 500 (str_of "Failed to clear chat history")
                 (STR (EXN (ValidationError (str_of "status"))))), st')
    /\ chat_memory st' = [] /\ app_context st' = [].
Proof. eexists. repeat split. Qed.

(** The messages of the memory pass the validation of the history model. *)
Lemma history_of_memory (memory : list chat_message) :
  ConversationHistory_new
    (map (fun msg => [ (str_of "role", msg_type msg);
                       (str_of "content", msg_content msg) ]) memory)
  = Ok (transcript memory).
Proof.
  induction memory as [|m memory IH]; [reflexivity|].
  cbn [map ConversationHistory_new]. rewrite IH. reflexivity.
Qed.

Lemma get_chat_history_run (st : app_state) :
  endpoints.get_chat_history st = (Return (transcript (chat_memory st)), st).
Proof.
  unfold endpoints.get_chat_history, app_try, app_bind,
    AIAgent.get_conversation_history, app_bind,
    LangChainService.get_conversation_history, app_ret, of_result.
  now rewrite history_of_memory.
Qed.

(** X17. The history route never fails and changes nothing: it returns one
    message per message of the memory, in order, with the type as role; and
    after the agent has cleared the conversation it returns the empty
    list. *)
Theorem get_chat_history_spec (st : app_state) :
  endpoints.get_chat_history st = (Return (transcript (chat_memory st)), st)
  /\ endpoints.get_chat_history (snd (AIAgent.clear_conversation st))
     = (Return [], snd (AIAgent.clear_conversation st)).
Proof.
  split; [apply get_chat_history_run|]. rewrite get_chat_history_run. reflexivity.
Qed.

(** The chat of the service, step by step. *)
Lemma generate_response_run (message : str) (st : app_state) :
  LangChainService.generate_response conversation message st
  = let '(r, memory) := conversation (chat_memory st) message in
    match r with
    | Ok text =>
        (Return (strip text),
         {| app_log := app_log st ++ [ (DEBUG, GENERATING_RESPONSE message);
                                       (DEBUG, CHAIN_RESPONSE text) ];
            app_context := app_context st;
            chat_memory := memory |})
    | Raise e =>
        (Raised (EXN e),
         {| app_log := app_log st ++ [ (DEBUG, GENERATING_RESPONSE message);
                                       (ERROR, ERROR_RESPONSE (EXN e)) ];
            app_context := app_context st;
            chat_memory := memory |})
    end.
Proof.
  unfold LangChainService.generate_response, app_try, app_bind, apredict.
  cbn [app_logger app_log app_context chat_memory].
  destruct (conversation (chat_memory st) message) as [[text|e] memory];
    cbn; rewrite <- ?app_assoc; reflexivity.
Qed.

(** X18. For a healthy service the chat route answers with the chain's
    reply trimmed of white space, and raises [HTTPException] 500 "Internal
    server error" when the chain fails; either way the agent has recorded
    the message under [last_message] and the memory is the one the chain
    left. *)
Theorem chat_route_spec (message : str) (st : app_state) :
  healthy env ->
  exists st',
    endpoints.chat_with_ai env conversation message st
    = (match fst (conversation (chat_memory st) message) with
       | Ok text => Return {| chat_response := strip text;
                              chat_timestamp := utcnow env |}
       | Raise e => Raised (internal_error e)
       end, st')
    /\ dict_get (app_context st') (str_of "last_message") = Some message
    /\ chat_memory st' = snd (conversation (chat_memory st) message).
Proof.
  intros H.
  unfold endpoints.chat_with_ai, app_try, app_bind.
  rewrite (health_check_healthy st H). cbn [negb app_ret app_logger].
  unfold AIAgent.process_message, app_bind.
  cbn [app_logger app_context_set app_log app_context chat_memory].
  rewrite generate_response_run.
  cbn [app_log app_context chat_memory].
  destruct (conversation (chat_memory st) message) as [[text|e] memory];
    eexists; (split; [reflexivity|]); cbn;
    (split; [|reflexivity]);
    rewrite dict_get_set_other by discriminate; apply dict_get_set_same.
Qed.

(** X19. No route lets an exception of the services through: each one
    answers or raises an [HTTPException] whose status is 500 or 503. *)
Theorem routes_raise_http_only (st : app_state) :
  (forall message,
     http_outcome (fst (endpoints.chat_with_ai env conversation message st)))
  /\ (forall request,
        http_outcome (fst (endpoints.generate_email_response env request st)))
  /\ http_outcome (fst (endpoints.get_chat_history st))
  /\ http_outcome (fst (endpoints.clear_chat env st))
  /\ http_outcome (fst (endpoints.get_status env st)).
Proof.
  assert (Htry : forall (A : Type) (body : App A) (log1 log2 : raised -> app_message) s,
             (forall st1 c a b, body s = (Raised (HTTPException c a b), st1) ->
                                c = 500%Z \/ c = 503%Z) ->
             http_outcome
               (fst (app_try body
                       (fun e =>
                          match e with
                          | HTTPException _ _ _ =>
                              (app_logger ERROR (log1 e) ;;; app_raise e)%app
                          | EXN _ =>
                              (app_logger ERROR (log2 e) ;;;
                               app_raise (HTTPException 500
                                            (str_of "Internal server error")
                                            (STR e)))%app
                          end) s))).
  { intros A body log1 log2 s Hb. unfold app_try.
    destruct (body s) as [[a|[e|c x y]] st1] eqn:E; cbn; auto.
    eapply Hb. reflexivity. }
  repeat apply conj.
  - intros message. apply Htry. intros st1 c a b.
    destruct (health_check_cases st) as (hb & records & Hh).
    unfold app_bind. rewrite Hh.
    destruct hb; cbn [negb app_raise app_ret].
    + cbn [app_logger]. unfold AIAgent.process_message, app_bind.
      cbn [app_logger app_context_set app_log app_context chat_memory].
      rewrite generate_response_run.
      cbn [app_log app_context chat_memory].
      destruct (conversation _ message) as [[text|e] memory]; discriminate.
    + intros [= <- _ _]. now right.
  - intros request. apply Htry. intros st1 c a b.
    destruct (health_check_cases st) as (hb & records & Hh).
    unfold app_bind. rewrite Hh.
    destruct hb; cbn [negb app_raise app_ret].
    + cbn [app_logger]. unfold lift.
      destruct (AIAgent.generate_email_response env request _) as [[r|e] s1];
        discriminate.
    + intros [= <- _ _]. now right.
  - rewrite get_chat_history_run. exact I.
  - cbn. now left.
  - unfold endpoints.get_status, app_bind.
    destruct (health_check_cases st) as (hb & records & ->).
    destruct hb; cbn; auto.
Qed.

End Routes.

(** *** Closed instances *)

Lemma canned_env_healthy : healthy canned_env.
Proof.
  exists reasoned_reply. split; [reflexivity|]. now apply strip_not_blank.
Qed.

Lemma failing_env_unhealthy : ~ healthy failing_env.
Proof. intros (text & H & _). discriminate H. Qed.

(** A service that is down refuses both routes. *)
Lemma unhealthy_routes_refuse_witness :
  ~ healthy failing_env
  /\ exists st',
       endpoints.generate_email_response (UD := ascii_only) failing_env
         formal_request initial_app_state
       = (Raised unavailable, st')
       /\ app_context st' = [] /\ chat_memory st' = [].
Proof.
  split; [exact failing_env_unhealthy|].
  exact (proj1 (@unhealthy_routes_refuse ascii_only failing_env canned_chain
                  initial_app_state failing_env_unhealthy) formal_request).
Defined.

(** The formal request through the route. *)
Lemma email_route_with_tone_witness :
  healthy canned_env
  /\ tone formal_request = Some FORMAL
  /\ exists st',
       endpoints.generate_email_response (UD := ascii_only) canned_env
         formal_request initial_app_state
       = (Return (response_for canned_env (str_of "formal")
                    (prompt_text formal_request (guideline FORMAL))
                    reasoned_reply None), st')
       /\ dict_get (app_context st') (str_of "last_email") = Some locked_account
       /\ chat_memory st' = [].
Proof.
  split; [exact canned_env_healthy|]. split; [reflexivity|].
  exact (@email_route_with_tone ascii_only canned_env formal_request FORMAL
           initial_app_state canned_env_healthy eq_refl).
Defined.

(** A chat turn: the padded reply comes back trimmed and the exchange is in
    the memory. *)
Lemma chat_route_spec_witness :
  healthy canned_env
  /\ exists st',
       endpoints.chat_with_ai canned_env canned_chain (str_of "Hello, AI!")
         initial_app_state
       = (Return {| chat_response := str_of "Hello!";
                    chat_timestamp := str_of "2024-01-01T00:00:00" |}, st')
       /\ dict_get (app_context st') (str_of "last_message")
          = Some (str_of "Hello, AI!")
       /\ chat_memory st'
          = [ {| msg_type := str_of "human"; msg_content := str_of "Hello, AI!" |};
              {| msg_type := str_of "ai"; msg_content := str_of "  Hello!  " |} ].
Proof.
  split; [exact canned_env_healthy|].
  exact (@chat_route_spec canned_env canned_chain (str_of "Hello, AI!")
           initial_app_state canned_env_healthy).
Defined.

(** A request without a tone through the route of a healthy service. *)
Example email_route_rejects_auto_request :
  exists st',
    endpoints.generate_email_response (UD := ascii_only) canned_env auto_request
      initial_app_state
    = (Raised (internal_error no_tone_error), st').
Proof. eexists. vm_compute. reflexivity. Qed.
